(** * financial-health-ai: the upload-and-analyze workflow of the frontend

  A shallow embedding of
    - [frontend/src/services/api.js]          ([uploadAndAnalyze]),
    - [frontend/src/App.jsx]                  ([App], [handleAnalysis]),
    - [frontend/src/components/ui/FileUploader.jsx]
                                              ([FileUploader], [handleUpload]),
    - the metrics grid component              ([MetricCard], [MetricsGrid]),
  together with the properties the specification states about them. *)

From Stdlib Require Import ZArith String List Bool SpecFloat Lia.
From stdpp Require Import base option gmap strings.
Import ListNotations.
Local Open Scope string_scope.

(** ** JavaScript values

  The values that travel through the program are what [JSON.parse] can
  produce, plus [undefined] (the result of reading an absent property).
  Numbers are IEEE-754 binary64, modelled by [spec_float]; objects are
  finite maps from property names to values. *)

#[warnings="-register-all"]
Inductive JsValue : Type :=
| JUndefined
| JNull
| JBool (b : bool)
| JNum (x : spec_float)
| JStr (s : string)
| JArr (items : list JsValue)
| JObj (props : gmap string JsValue).

Module Num.

Definition prec : Z := 53.
Definition emax : Z := 1024.

Definition zero : spec_float := S754_zero false.
Definition nan : spec_float := S754_nan.

(** The binary64 nearest to an integer (how a JSON integer literal is read). *)
Definition of_Z (z : Z) : spec_float :=
  match z with
  | Z0 => zero
  | Zpos p => binary_round prec emax false p 0
  | Zneg p => binary_round prec emax true p 0
  end.

Definition one : spec_float := of_Z 1.

(** [to_Z x] is the integer [x] denotes, when [x] denotes one. *)
Definition to_Z (x : spec_float) : option Z :=
  match x with
  | S754_zero _ => Some 0%Z
  | S754_finite s m e =>
      let sign (z : Z) := if s then Z.opp z else z in
      if (0 <=? e)%Z then Some (sign (Z.pos m * 2 ^ e)%Z)
      else if (Z.pos m mod 2 ^ (- e) =? 0)%Z
           then Some (sign (Z.pos m / 2 ^ (- e))%Z)
           else None
  | _ => None
  end.

(** [a > b] on numbers: false as soon as one side is NaN. *)
Definition gtb (a b : spec_float) : bool := SFltb b a.

Definition is_zero (x : spec_float) : bool :=
  match x with S754_zero _ => true | _ => false end.

Definition is_nan (x : spec_float) : bool :=
  match x with S754_nan => true | _ => false end.

End Num.

(** ToBoolean. *)
Definition truthy (v : JsValue) : bool :=
  match v with
  | JUndefined | JNull => false
  | JBool b => b
  | JNum x => negb (Num.is_zero x || Num.is_nan x)
  | JStr s => negb (String.eqb s "")
  | JArr _ | JObj _ => true
  end.

(** [a || b]. *)
Definition js_or (a b : JsValue) : JsValue := if truthy a then a else b.

(** [o.k] on an object created by [JSON.parse]. *)
Definition js_get (o : gmap string JsValue) (k : string) : JsValue :=
  default JUndefined (o !! k).

(** [v.k] on a value other than [undefined] and [null]: primitives and arrays
    have no such own property. *)
Definition js_prop (v : JsValue) (k : string) : JsValue :=
  match v with
  | JObj o => js_get o k
  | _ => JUndefined
  end.

(** [v.k1.k2...]: [None] when a property is read off [undefined] or [null]
    (a TypeError). *)
Fixpoint js_path (v : JsValue) (ks : list string) : option JsValue :=
  match ks with
  | [] => Some v
  | k :: ks' =>
      match v with
      | JUndefined | JNull => None
      | _ => js_path (js_prop v k) ks'
      end
  end.

(** [undefined] or [null]. *)
Definition nullish (v : JsValue) : bool :=
  match v with
  | JUndefined | JNull => true
  | _ => false
  end.

(** Whether the result branch of [App] can read what it reads off [result]:
    [result.credit_readiness.score] and [.grade],
    [result.financial_summary.metrics], and in [MetricsGrid] the properties
    of those metrics.  Each read throws a TypeError when the value read from
    is [undefined] or [null]. *)
Definition readable (result : JsValue) : bool :=
  negb (nullish result)
  && negb (nullish (js_prop result "credit_readiness"))
  && negb (nullish (js_prop result "financial_summary"))
  && negb (nullish (js_prop (js_prop result "financial_summary") "metrics")).

(** ** The metrics grid

    ToNumber and the comparison [v > n].  Reading a number out of a string,
    or out of an object through ToPrimitive, is the host's business; both
    conversions are taken as given. *)

Inductive Icon := TrendingUp | TrendingDown | DollarSign | Wallet.

(** What a rendered [MetricCard] shows: its icon, its badge, its title and the
    number handed to [toLocaleString]. *)
Record CardView := {
  card_icon : Icon;
  card_badge : string;
  card_title : string;
  card_amount : spec_float
}.

(** The four recognized keys, the property each is read from and the card
    that shows it. *)
Inductive MetricKey := TotalRevenue | NetCashflow | TotalExpenses | AvgTransaction.

Definition key_name (k : MetricKey) : string :=
  match k with
  | TotalRevenue => "total_revenue"
  | NetCashflow => "net_cashflow"
  | TotalExpenses => "total_expenses"
  | AvgTransaction => "avg_transaction"
  end.

Definition key_title (k : MetricKey) : string :=
  match k with
  | TotalRevenue => "Total Revenue"
  | NetCashflow => "Net Cashflow"
  | TotalExpenses => "Total Expenses"
  | AvgTransaction => "Avg Transaction"
  end.

Definition card_index (k : MetricKey) : nat :=
  match k with
  | TotalRevenue => 0
  | NetCashflow => 1
  | TotalExpenses => 2
  | AvgTransaction => 3
  end.

Section Display.

Variable StringToNumber : string -> spec_float.
Variable ObjectToNumber : JsValue -> spec_float.

Definition ToNumber (v : JsValue) : spec_float :=
  match v with
  | JUndefined => Num.nan
  | JNull => Num.zero
  | JBool b => if b then Num.one else Num.zero
  | JNum x => x
  | JStr s => StringToNumber s
  | JArr _ | JObj _ => ObjectToNumber v
  end.

(** [v > n] with a number on the right. *)
Definition js_gt (v : JsValue) (n : spec_float) : bool :=
  Num.gtb (ToNumber v) n.

Definition MetricCard (title : string) (value : JsValue)
                      (isPositive : bool) (icon : Icon) : CardView :=
  {| card_icon := icon;
     card_badge := if isPositive then "HEALTHY" else "STRESS";
     card_title := title;
     card_amount := ToNumber value |}.

Definition MetricsGrid (metrics : gmap string JsValue) : list CardView :=
  [ MetricCard "Total Revenue"
      (js_or (js_get metrics "total_revenue") (JNum Num.zero)) true TrendingUp;
    MetricCard "Net Cashflow"
      (js_or (js_get metrics "net_cashflow") (JNum Num.zero))
      (js_gt (js_get metrics "net_cashflow") Num.zero) Wallet;
    MetricCard "Total Expenses"
      (js_or (js_get metrics "total_expenses") (JNum Num.zero)) false TrendingDown;
    MetricCard "Avg Transaction"
      (js_or (js_get metrics "avg_transaction") (JNum Num.zero)) true DollarSign ].

(** The card that shows a recognized key. *)
Definition card_of (metrics : gmap string JsValue) (k : MetricKey) : option CardView :=
  MetricsGrid metrics !! card_index k.

Definition badge_of (metrics : gmap string JsValue) (k : MetricKey) : option string :=
  card_badge <$> card_of metrics k.

Definition amount_of (metrics : gmap string JsValue) (k : MetricKey) : option spec_float :=
  card_amount <$> card_of metrics k.

End Display.

(** ** The network exchange and axios

    One exchange with the analysis endpoint either produces no HTTP reply
    (connection refused, timeout, DNS failure) or a reply with a status and a
    body, which axios has already read as JSON. *)

Record File := {
  file_name : string;
  file_bytes : list Byte.byte
}.

Inductive FormValue :=
| FormFile (f : File)
| FormText (s : string).

(** A [FormData] is the ordered list of its entries. *)
Definition FormData := list (string * FormValue).

Definition append (fd : FormData) (name : string) (v : FormValue) : FormData :=
  (fd ++ [(name, v)])%list.

Record Request := {
  req_method : string;
  req_url : string;
  req_body : FormData;
  req_headers : list (string * string)
}.

Inductive Exchange :=
| NoReply (reason : string)
| Reply (status : Z) (body : JsValue).

Record AxiosResponse := {
  status : Z;
  data : JsValue
}.

(** The error a rejected axios promise carries: [error.response] is set
    exactly when the server replied. *)
Inductive AxiosError :=
| NetworkError (reason : string)
| BadStatus (response : AxiosResponse).

(** axios' default [validateStatus]. *)
Definition validateStatus (s : Z) : bool := (200 <=? s)%Z && (s <? 300)%Z.

(** How axios settles the promise of a request. *)
Definition settle (ex : Exchange) : AxiosError + AxiosResponse :=
  match ex with
  | NoReply reason => inl (NetworkError reason)
  | Reply s body =>
      let response := {| status := s; data := body |} in
      if validateStatus s then inr response else inl (BadStatus response)
  end.

(** The failure kinds of section 7 of the specification, and the kind a
    caller can read off the error it catches ([error.response] absent or
    present).  No error of the client is a schema error. *)
Inductive FailureKind := TransportError | ServerError | SchemaError.

Definition failure_kind (error : AxiosError) : FailureKind :=
  match error with
  | NetworkError _ => TransportError
  | BadStatus _ => ServerError
  end.

(** ** Effects

    The handlers set React state, raise alerts, write to the console and
    await one network exchange.  A handler is a tree of these effects; it is
    run against the page ([run], below) up to the point where it awaits. *)

Inductive Op :=
| SetResult (v : JsValue)                     (* App: setResult *)
| SetAppLoading (b : bool)                    (* App: setLoading *)
| SetLang (l : string)                        (* App: setLang *)
| SetLoading (inst : nat) (b : bool)          (* FileUploader: setLoading *)
| SetFile (inst : nat) (f : option File)      (* FileUploader: setFile *)
| Alert (msg : string)                        (* window.alert *)
| ConsoleError (label : string) (e : AxiosError).

Inductive Prog (A : Type) : Type :=
| Ret (a : A)
| Throw (e : AxiosError)
| Do (op : Op) (k : Prog A)
| Await (req : Request) (k : Exchange -> Prog A).

Arguments Ret {A} a.
Arguments Throw {A} e.
Arguments Do {A} op k.
Arguments Await {A} req k.

Fixpoint bind {A B : Type} (p : Prog A) (f : A -> Prog B) : Prog B :=
  match p with
  | Ret a => f a
  | Throw e => Throw e
  | Do op k => Do op (bind k f)
  | Await req k => Await req (fun ex => bind (k ex) f)
  end.

Definition perform (op : Op) : Prog unit := Do op (Ret tt).

Declare Scope prog_scope.
Delimit Scope prog_scope with prog.
Notation "x <- p ;; q" := (bind p (fun x => q))
  (at level 100, p at next level, right associativity) : prog_scope.
Notation "p ;; q" := (bind p (fun _ => q))
  (at level 100, right associativity) : prog_scope.
Local Open Scope prog_scope.

(** [try { p } catch (e) { h e }]. *)
Fixpoint try_catch {A : Type} (p : Prog A) (h : AxiosError -> Prog A) : Prog A :=
  match p with
  | Ret a => Ret a
  | Throw e => h e
  | Do op k => Do op (try_catch k h)
  | Await req k => Await req (fun ex => try_catch (k ex) h)
  end.

(** [try { p } finally { f }]: [f] runs on both exits and the exit of [p]
    is kept. *)
Fixpoint try_finally {A : Type} (p : Prog A) (f : Prog unit) : Prog A :=
  match p with
  | Ret a => f ;; Ret a
  | Throw e => f ;; Throw e
  | Do op k => Do op (try_finally k f)
  | Await req k => Await req (fun ex => try_finally (k ex) f)
  end.

(** [await axios.post(url, formData, { headers })]. *)
Definition axios_post (url : string) (formData : FormData)
                      (headers : list (string * string)) : Prog AxiosResponse :=
  Await {| req_method := "POST"; req_url := url;
           req_body := formData; req_headers := headers |}
        (fun ex => match settle ex with
                   | inl error => Throw error
                   | inr response => Ret response
                   end).

(** ** The page

    [App] owns [result], [loading] and [lang]; it renders a [FileUploader]
    exactly while [result] is falsy.  A [FileUploader] instance owns its own
    [loading] and [file]; they are lost when it is unmounted, and a later
    mount starts afresh. *)

Module App.
Record State := {
  result : JsValue;
  loading : bool;
  lang : string
}.
Definition initial : State :=
  {| result := JNull; loading := false; lang := "en" |}.
End App.

Module FileUploader.
Record State := {
  loading : bool;
  file : option File
}.
Definition initial : State :=
  {| loading := false; file := None |}.
End FileUploader.

(** A mounted [FileUploader]: [inst] tells component instances apart, so that
    a setter that belongs to an unmounted instance changes nothing. *)
Record Mounted := {
  inst : nat;
  ustate : FileUploader.State
}.

Record World := {
  app : App.State;
  uploader : option Mounted;
  mounts : nat;                              (* instances mounted so far *)
  alerts : list string;                      (* messages shown by window.alert *)
  console : list (string * AxiosError);      (* console.error lines *)
  network : list Request                     (* requests sent so far *)
}.

Definition with_app (f : App.State -> App.State) (w : World) : World :=
  {| app := f (app w); uploader := uploader w; mounts := mounts w;
     alerts := alerts w; console := console w; network := network w |}.

Definition with_uploader (i : nat) (f : FileUploader.State -> FileUploader.State)
                         (w : World) : World :=
  match uploader w with
  | Some m =>
      if Nat.eqb (inst m) i
      then {| app := app w;
              uploader := Some {| inst := i; ustate := f (ustate m) |};
              mounts := mounts w; alerts := alerts w; console := console w;
              network := network w |}
      else w
  | None => w
  end.

(** The conditional in [App]'s render,
    [{!result ? <FileUploader .../> : <results/>}], as far as the state of
    the components goes: with a truthy [result] the uploader is unmounted and
    its state lost.  That is so when the result branch renders, and it is so
    when that branch throws: React then unmounts the whole tree, the uploader
    with it, and leaves a blank page.  Which of the two it is, is what [page]
    below tells; the [World] keeps what was last set. *)
Definition render (w : World) : World :=
  if truthy (App.result (app w))
  then {| app := app w; uploader := None; mounts := mounts w;
          alerts := alerts w; console := console w; network := network w |}
  else match uploader w with
       | Some _ => w
       | None =>
           {| app := app w;
              uploader := Some {| inst := mounts w;
                                  ustate := FileUploader.initial |};
              mounts := S (mounts w);
              alerts := alerts w; console := console w; network := network w |}
       end.

Definition apply_op (op : Op) (w : World) : World :=
  match op with
  | SetResult v =>
      render (with_app (fun a => {| App.result := v;
                                    App.loading := App.loading a;
                                    App.lang := App.lang a |}) w)
  | SetAppLoading b =>
      with_app (fun a => {| App.result := App.result a;
                            App.loading := b;
                            App.lang := App.lang a |}) w
  | SetLang l =>
      with_app (fun a => {| App.result := App.result a;
                            App.loading := App.loading a;
                            App.lang := l |}) w
  | SetLoading i b =>
      with_uploader i (fun u => {| FileUploader.loading := b;
                                   FileUploader.file := FileUploader.file u |}) w
  | SetFile i f =>
      with_uploader i (fun u => {| FileUploader.loading := FileUploader.loading u;
                                   FileUploader.file := f |}) w
  | Alert msg =>
      {| app := app w; uploader := uploader w; mounts := mounts w;
         alerts := (alerts w ++ [msg])%list; console := console w;
         network := network w |}
  | ConsoleError label e =>
      {| app := app w; uploader := uploader w; mounts := mounts w;
         alerts := alerts w; console := (console w ++ [(label, e)])%list;
         network := network w |}
  end.

Definition send (req : Request) (w : World) : World :=
  {| app := app w; uploader := uploader w; mounts := mounts w;
     alerts := alerts w; console := console w;
     network := (network w ++ [req])%list |}.

Definition initial_world : World :=
  {| app := App.initial;
     uploader := Some {| inst := 0; ustate := FileUploader.initial |};
     mounts := 1; alerts := []; console := []; network := [] |}.

(** Running a handler: up to its end, or up to the request it awaits. *)
Inductive Status (A : Type) : Type :=
| Finished (r : AxiosError + A) (w : World)
| Suspended (req : Request) (k : Exchange -> Prog A) (w : World).

Arguments Finished {A} r w.
Arguments Suspended {A} req k w.

Fixpoint run {A : Type} (p : Prog A) (w : World) : Status A :=
  match p with
  | Ret a => Finished (inr a) w
  | Throw e => Finished (inl e) w
  | Do op k => run k (apply_op op w)
  | Await req k => Suspended req k (send req w)
  end.

(** Running a handler to its end, when [net] tells how each exchange goes. *)
Fixpoint exec {A : Type} (net : Request -> Exchange) (p : Prog A) (w : World)
  : (AxiosError + A) * World :=
  match p with
  | Ret a => (inr a, w)
  | Throw e => (inl e, w)
  | Do op k => exec net k (apply_op op w)
  | Await req k => exec net (k (net req)) (send req w)
  end.

(** ** services/api.js *)

Section Deployment.

(** [process.env.REACT_APP_API_URL], read when the module is loaded. *)
Variable REACT_APP_API_URL : option string.

(** Whether React and the chart library accept what the result branch hands
    them for a result it could read.  They are not code of this repository
    (React refuses an object as a child, a number conversion can throw, a
    chart can refuse its data), so their verdict is taken as given. *)
Variable accepted : JsValue -> bool.

(** [const API_BASE_URL = process.env.REACT_APP_API_URL || ""]. *)
Definition API_BASE_URL : string :=
  match REACT_APP_API_URL with
  | Some url => if String.eqb url "" then "" else url
  | None => ""
  end.

(** An omitted argument is [None] and takes the parameter's default. *)
Definition uploadAndAnalyze (file : File) (businessType language : option string)
  : Prog JsValue :=
  let businessType := default "Retail" businessType in
  let language := default "en" language in
  let formData := [] in
  let formData := append formData "file" (FormFile file) in
  let formData := append formData "business_type" (FormText businessType) in
  let formData := append formData "language" (FormText language) in
  try_catch
    (response <- axios_post (API_BASE_URL ++ "/analysis/run") formData
                   [("Content-Type", "multipart/form-data")] ;;
     Ret (data response))
    (fun error => perform (ConsoleError "API Error:" error) ;; Throw error).

(** The request section 6 of the specification describes, for comparison with
    what [uploadAndAnalyze] sends. *)
Definition analysis_request (file : File) (businessType language : string) : Request :=
  {| req_method := "POST";
     req_url := API_BASE_URL ++ "/analysis/run";
     req_body := [ ("file", FormFile file);
                   ("business_type", FormText businessType);
                   ("language", FormText language) ];
     req_headers := [ ("Content-Type", "multipart/form-data") ] |}.

(** ** App.jsx *)

(** [handleAnalysis], as created by a render in which [lang] has the given
    value. *)
Definition handleAnalysis (lang : string) (file : File) : Prog unit :=
  perform (SetAppLoading true) ;;
  try_finally
    (try_catch
       (data <- uploadAndAnalyze file (Some "Retail") (Some lang) ;;
        perform (SetResult data))
       (fun err => perform (Alert "Error connecting to backend. See console.")))
    (perform (SetAppLoading false)).

(** ** components/ui/FileUploader.jsx *)

(** [handleFileChange]: [files0] is [e.target.files[0]], absent when the
    chooser was dismissed. *)
Definition handleFileChange (i : nat) (files0 : option File) : Prog unit :=
  perform (SetFile i files0).

(** [handleUpload] of instance [i], as created by a render in which [file]
    has the given value. *)
Definition handleUpload (i : nat) (onUploadSuccess : File -> Prog unit)
                        (file : option File) : Prog unit :=
  match file with
  | None => Ret tt
  | Some f =>
      perform (SetLoading i true) ;;
      try_finally
        (try_catch
           (data <- onUploadSuccess f ;; Ret tt)
           (fun err => perform (Alert "Upload failed. Check console.")))
        (perform (SetLoading i false))
  end.

(** ** What the page offers

    The controls the current render shows, each with its handler. *)

(** [{file && !loading && <button onClick={handleUpload}>}], inside the
    [FileUploader] that [App] renders with [onUploadSuccess={handleAnalysis}]. *)
Definition analyze_button (w : World) : option (Prog unit) :=
  match uploader w with
  | Some m =>
      match FileUploader.file (ustate m) with
      | Some f =>
          if FileUploader.loading (ustate m) then None
          else Some (handleUpload (inst m)
                       (handleAnalysis (App.lang (app w))) (Some f))
      | None => None
      end
  | None => None
  end.

(** [<input type="file" onChange={handleFileChange}/>]. *)
Definition file_input (w : World) : option (option File -> Prog unit) :=
  match uploader w with
  | Some m => Some (handleFileChange (inst m))
  | None => None
  end.

(** Whether the result branch renders for [result]: it can read what it
    reads, and the libraries accept what they are handed. *)
Definition displays (result : JsValue) : bool :=
  readable result && accepted result.

(** What is on the screen.  [App] has no error boundary: when its result
    branch throws, nothing of the page is left, the header with its buttons
    included. *)
Inductive Page := UploadPage | ResultPage | BlankPage.

Definition page (w : World) : Page :=
  if truthy (App.result (app w))
  then if displays (App.result (app w)) then ResultPage else BlankPage
  else UploadPage.

(** [{result && <button onClick={() => setResult(null)}>New Scan</button>}],
    in the header of a page that rendered. *)
Definition new_scan_button (w : World) : option (Prog unit) :=
  match page w with
  | ResultPage => Some (perform (SetResult JNull))
  | _ => None
  end.

(** The two language buttons.  (The event loop below lets them act on every
    page; on a blank page there is none left to click, and nothing reads
    [lang] there.) *)
Definition lang_button (l : string) : Prog unit := perform (SetLang l).

(** ** The event loop

    Besides the page, the system holds the handlers suspended on an exchange
    that has not settled yet. *)

Record Pending := {
  pending_request : Request;
  pending_resume : Exchange -> Prog unit
}.

Record System := {
  world : World;
  inflight : list Pending
}.

Definition initial_system : System :=
  {| world := initial_world; inflight := [] |}.

Definition dispatch (p : Prog unit) (w : World) (fl : list Pending) : System :=
  match run p w with
  | Finished _ w' => {| world := w'; inflight := fl |}
  | Suspended req k w' =>
      {| world := w';
         inflight := (fl ++ [{| pending_request := req; pending_resume := k |}])%list |}
  end.

Inductive Event :=
| ChooseFile (files0 : option File)
| ClickAnalyze
| ClickLang (hi : bool)
| ClickNewScan
| Settle (n : nat) (ex : Exchange).

Definition click (control : option (Prog unit)) (s : System) : System :=
  match control with
  | Some handler => dispatch handler (world s) (inflight s)
  | None => s
  end.

Definition step (s : System) (ev : Event) : System :=
  match ev with
  | ChooseFile files0 =>
      click (option_map (fun h => h files0) (file_input (world s))) s
  | ClickAnalyze => click (analyze_button (world s)) s
  | ClickLang hi => click (Some (lang_button (if hi then "hi" else "en"))) s
  | ClickNewScan => click (new_scan_button (world s)) s
  | Settle n ex =>
      match inflight s !! n with
      | Some p => dispatch (pending_resume p ex) (world s)
                    (take n (inflight s) ++ drop (S n) (inflight s))%list
      | None => s
      end
  end.

Definition steps (s : System) (evs : list Event) : System :=
  fold_left step evs s.

Definition is_settle (ev : Event) : bool :=
  match ev with
  | Settle _ _ => true
  | _ => false
  end.

(** ** The two halves of a submission

    [submitted] is the page once [handleUpload] has reached its [await];
    [settled] is the page once the awaited exchange has settled and the
    handlers have run to their end.  (That the handlers do produce them is
    lemma [run_handleUpload] below.) *)

Definition submitted (i : nat) (req : Request) (w : World) : World :=
  send req (apply_op (SetAppLoading true) (apply_op (SetLoading i true) w)).

Definition settled (i : nat) (ex : Exchange) (w : World) : World :=
  let w' :=
    match settle ex with
    | inr response => apply_op (SetResult (data response)) w
    | inl error =>
        apply_op (Alert "Error connecting to backend. See console.")
          (apply_op (ConsoleError "API Error:" error) w)
    end in
  apply_op (SetLoading i false) (apply_op (SetAppLoading false) w').

Definition completes_as (k : Exchange -> Prog unit) (i : nat) : Prop :=
  forall (ex : Exchange) (w : World), run (k ex) w = Finished (inr tt) (settled i ex w).

(** ** Invariants of the event loop *)

(** The uploader is mounted exactly while there is no result to show. *)
Definition coherent (w : World) : Prop :=
  if truthy (App.result (app w)) then uploader w = None
  else exists m : Mounted, uploader w = Some m.

(** Nothing in flight, and no spinner. *)
Definition quiet (s : System) : Prop :=
  inflight s = [] /\
  forall m : Mounted, uploader (world s) = Some m ->
                      FileUploader.loading (ustate m) = false.

(** One submission in flight, started by the mounted uploader, which shows
    its spinner. *)
Definition busy (s : System) : Prop :=
  exists (p : Pending) (m : Mounted),
    inflight s = [p] /\
    uploader (world s) = Some m /\
    FileUploader.loading (ustate m) = true /\
    completes_as (pending_resume p) (inst m).

Definition from_a_file (req : Request) : Prop :=
  exists (f : File) (l : string), req = analysis_request f "Retail" l.

Record invariant (s : System) : Prop := {
  inv_coherent : coherent (world s);
  inv_flight : quiet s \/ busy s;
  inv_network : Forall from_a_file (network (world s))
}.

End Deployment.

(** ** The workflow states of the specification, read off the page

    [Succeeded] is what the render itself branches on (a truthy [result]);
    whether the result branch then renders is told by [page].
    [Submitting] is the uploader's spinner; a failure is reported through
    [window.alert] and stored nowhere, so [Failed] can only be told by the
    alerts raised since an earlier moment [before]. *)

Inductive Phase := Idle | FileSelected | Submitting | Succeeded | Failed.

Definition new_alerts (before now : World) : list string :=
  drop (length (alerts before)) (alerts now).

Definition phase_since (before now : World) : Phase :=
  if truthy (App.result (app now)) then Succeeded
  else match uploader now with
       | Some m =>
           if FileUploader.loading (ustate m) then Submitting
           else match new_alerts before now with
                | _ :: _ => Failed
                | [] =>
                    match FileUploader.file (ustate m) with
                    | Some _ => FileSelected
                    | None => Idle
                    end
                end
       | None => Idle
       end.

Definition phase (w : World) : Phase := phase_since w w.

(** The file the uploader currently holds, if any. *)
Definition selected_file (w : World) : option File :=
  match uploader w with
  | Some m => FileUploader.file (ustate m)
  | None => None
  end.

(** ** The result schema of the specification

    Modelled from the spec: the validating parse of section 4.1, over the wire
    names of section 6.  The repository has no such function; it is written
    here from the specification's words, to say what a schema-valid body is. *)

Module ResultSchema.

Inductive Grade := GradeA | GradeB | GradeC | GradeD.

Record CreditReadiness := {
  score : Z;
  grade : Grade
}.

Record Metrics := {
  totalRevenue : option spec_float;
  netCashflow : option spec_float;
  totalExpenses : option spec_float;
  avgTransaction : option spec_float
}.

Record Projection := {
  month : string;
  projectedRevenue : spec_float;
  projectedNetCashflow : spec_float
}.

Record AnalysisResult := {
  creditReadiness : CreditReadiness;
  metrics : Metrics;
  projections : list Projection;
  aiReport : string
}.

(** The error names the first missing or mistyped field. *)
Inductive SchemaError := Invalid (field : string).

Definition Parsed (A : Type) : Type := SchemaError + A.

Definition and_then {A B : Type} (p : Parsed A) (f : A -> Parsed B) : Parsed B :=
  match p with
  | inl e => inl e
  | inr a => f a
  end.

Definition object_at (field : string) (v : JsValue) : Parsed (gmap string JsValue) :=
  match v with
  | JObj o => inr o
  | _ => inl (Invalid field)
  end.

Definition number_at (field : string) (v : JsValue) : Parsed spec_float :=
  match v with
  | JNum x => inr x
  | _ => inl (Invalid field)
  end.

Definition string_at (field : string) (v : JsValue) : Parsed string :=
  match v with
  | JStr s => inr s
  | _ => inl (Invalid field)
  end.

(** An absent amount stays absent; a present one must be a number. *)
Definition amount_at (field : string) (v : JsValue) : Parsed (option spec_float) :=
  match v with
  | JUndefined => inr None
  | JNum x => inr (Some x)
  | _ => inl (Invalid field)
  end.

Definition score_at (field : string) (v : JsValue) : Parsed Z :=
  match v with
  | JNum x =>
      match Num.to_Z x with
      | Some z => if (0 <=? z)%Z && (z <=? 100)%Z then inr z else inl (Invalid field)
      | None => inl (Invalid field)
      end
  | _ => inl (Invalid field)
  end.

Definition grade_at (field : string) (v : JsValue) : Parsed Grade :=
  match v with
  | JStr "A" => inr GradeA
  | JStr "B" => inr GradeB
  | JStr "C" => inr GradeC
  | JStr "D" => inr GradeD
  | _ => inl (Invalid field)
  end.

Definition projection_at (v : JsValue) : Parsed Projection :=
  and_then (object_at "projections[]" v) (fun o =>
  and_then (string_at "projections[].month" (js_get o "month")) (fun m =>
  and_then (number_at "projections[].projected_revenue"
              (js_get o "projected_revenue")) (fun r =>
  and_then (number_at "projections[].projected_net_cashflow"
              (js_get o "projected_net_cashflow")) (fun c =>
  inr {| month := m; projectedRevenue := r; projectedNetCashflow := c |})))).

Fixpoint projections_at (items : list JsValue) : Parsed (list Projection) :=
  match items with
  | [] => inr []
  | v :: rest =>
      and_then (projection_at v) (fun p =>
      and_then (projections_at rest) (fun ps => inr (p :: ps)))
  end.

Definition parse (body : JsValue) : Parsed AnalysisResult :=
  and_then (object_at "body" body) (fun o =>
  and_then (object_at "credit_readiness" (js_get o "credit_readiness")) (fun cr =>
  and_then (score_at "credit_readiness.score" (js_get cr "score")) (fun s =>
  and_then (grade_at "credit_readiness.grade" (js_get cr "grade")) (fun g =>
  and_then (object_at "financial_summary" (js_get o "financial_summary")) (fun fs =>
  and_then (object_at "financial_summary.metrics" (js_get fs "metrics")) (fun ms =>
  and_then (amount_at "financial_summary.metrics.total_revenue"
              (js_get ms "total_revenue")) (fun tr =>
  and_then (amount_at "financial_summary.metrics.net_cashflow"
              (js_get ms "net_cashflow")) (fun nc =>
  and_then (amount_at "financial_summary.metrics.total_expenses"
              (js_get ms "total_expenses")) (fun te =>
  and_then (amount_at "financial_summary.metrics.avg_transaction"
              (js_get ms "avg_transaction")) (fun av =>
  and_then (match js_get o "projections" with
            | JArr items => projections_at items
            | _ => inl (Invalid "projections")
            end) (fun ps =>
  and_then (string_at "ai_report" (js_get o "ai_report")) (fun report =>
  inr {| creditReadiness := {| score := s; grade := g |};
         metrics := {| totalRevenue := tr; netCashflow := nc;
                       totalExpenses := te; avgTransaction := av |};
         projections := ps;
         aiReport := report |})))))))))))).

End ResultSchema.

(** What section 4.2 of the specification asks of an outcome of the client:
    a body that passes the schema, or a failure. *)
Definition validated_or_failed (outcome : AxiosError + JsValue) : Prop :=
  match outcome with
  | inl _ => True
  | inr body => exists r : ResultSchema.AnalysisResult, ResultSchema.parse body = inr r
  end.

(** ** Sample data: the scenarios of the specification *)

Definition statement_csv : File :=
  {| file_name := "statement.csv"; file_bytes := [] |}.

Definition JInt (z : Z) : JsValue := JNum (Num.of_Z z).

Definition obj (props : list (string * JsValue)) : JsValue :=
  JObj (list_to_map props).

(** Scenario A: a complete body. *)
Definition body_A : JsValue :=
  obj [ ("credit_readiness", obj [("score", JInt 72); ("grade", JStr "B")]);
        ("financial_summary",
           obj [("metrics",
                   obj [("total_revenue", JInt 500000);
                        ("net_cashflow", JInt 120000);
                        ("total_expenses", JInt 380000);
                        ("avg_transaction", JInt 2500)])]);
        ("projections",
           JArr [obj [("month", JStr "Jan");
                      ("projected_revenue", JInt 510000);
                      ("projected_net_cashflow", JInt 125000)]]);
        ("ai_report", JStr "Stable growth trend.") ].

(** Scenario C: the score is missing. *)
Definition body_C : JsValue :=
  obj [ ("credit_readiness", obj [("grade", JStr "B")]) ].

(** A reply that is not JSON at all reaches the client as a string. *)
Definition body_html : JsValue := JStr "<!doctype html>".

(** A metrics mapping without a net cashflow. *)
Definition partial_metrics : gmap string JsValue :=
  list_to_map [ ("total_revenue", JInt 500000); ("total_expenses", JInt 380000) ].

(** A host whose conversions of strings and objects yield NaN. *)
Definition nan_of_string : string -> spec_float := fun _ => Num.nan.
Definition nan_of_object : JsValue -> spec_float := fun _ => Num.nan.

(** A deployment without [REACT_APP_API_URL]; the page once
    [statement.csv] has been chosen; and that page after a submission whose
    exchange went as [ex]. *)
Definition no_env : option string := None.

(** Libraries that accept whatever they are handed. *)
Definition accepts_all : JsValue -> bool := fun _ => true.

Definition chosen : System :=
  steps no_env accepts_all initial_system [ChooseFile (Some statement_csv)].

Definition submitted_and_settled (ex : Exchange) : System :=
  steps no_env accepts_all chosen [ClickAnalyze; Settle 0 ex].

(** ** components/summary/CreditScoreGauge

    What the gauge hands to the chart: the [value] of each entry of [data],
    the [fill] of each [Cell], and the two values it prints. *)

Record GaugeView := {
  gauge_slices : list JsValue;
  gauge_fills : list JsValue;
  gauge_grade : JsValue;
  gauge_score : JsValue
}.

(** [v === s], for a string literal [s]. *)
Definition js_is (v : JsValue) (s : string) : bool :=
  match v with
  | JStr t => String.eqb t s
  | _ => false
  end.

(** [xs[i]]. *)
Definition js_index (xs : list string) (i : nat) : JsValue :=
  match xs !! i with
  | Some x => JStr x
  | None => JUndefined
  end.

(** ** components/charts/ForecastChart

    The chart is configuration only: the data it is given, the key of the
    axis and the two series. *)

Record AreaSeries := {
  area_dataKey : string;
  area_name : string;
  area_stroke : string
}.

Record ChartView := {
  chart_title : string;
  chart_data : JsValue;
  chart_axis : string;
  chart_areas : list AreaSeries
}.

Definition ForecastChart (data : JsValue) : ChartView :=
  {| chart_title := "3-Month Financial Projection";
     chart_data := data;
     chart_axis := "month";
     chart_areas :=
       [ {| area_dataKey := "projected_revenue"; area_name := "Revenue";
            area_stroke := "#10b981" |};
         {| area_dataKey := "projected_net_cashflow"; area_name := "Net Profit";
            area_stroke := "#3b82f6" |} ] |}.

(** The result branch of [App]'s render. *)
Record ResultView := {
  view_gauge : GaugeView;
  view_metrics : list CardView;
  view_chart : ChartView;
  view_report : JsValue
}.

Section Summary.

Variable StringToNumber : string -> spec_float.
Variable ObjectToNumber : JsValue -> spec_float.

(** [n - v] with a number on the left. *)
Definition js_minus (n : spec_float) (v : JsValue) : spec_float :=
  SFsub Num.prec Num.emax n (ToNumber StringToNumber ObjectToNumber v).

Definition CreditScoreGauge (score grade : JsValue) : GaugeView :=
  let data := [ score; JNum (js_minus (Num.of_Z 100) score) ] in
  let COLORS :=
    if js_is grade "A" then [ "#10b981"; "#334155" ]
    else if js_is grade "B" then [ "#3b82f6"; "#334155" ]
    else if js_is grade "C" then [ "#f59e0b"; "#334155" ]
    else [ "#ef4444"; "#334155" ] in
  {| gauge_slices := data;
     gauge_fills :=
       imap (fun index _ => js_index COLORS (index mod length COLORS)) data;
     gauge_grade := grade;
     gauge_score := score |}.

(** [MetricsGrid] on whatever it is given as [metrics]: reading a property
    off [undefined] or [null] throws, and a value that is not an object has
    none of the four properties. *)
Definition MetricsGrid_of (metrics : JsValue) : option (list CardView) :=
  match metrics with
  | JUndefined | JNull => None
  | JObj o => Some (MetricsGrid StringToNumber ObjectToNumber o)
  | _ => Some (MetricsGrid StringToNumber ObjectToNumber ∅)
  end.

(** The result branch of [App], as far as it reads the result: [None] when
    a property is read off [undefined] or [null], which throws a TypeError;
    otherwise what is handed to the gauge, the cards, the chart and the
    report paragraph.  (What React and the chart library make of values of
    the wrong kind is theirs to decide.) *)
Definition result_view (result : JsValue) : option ResultView :=
  score ← js_path result [ "credit_readiness"; "score" ];
  grade ← js_path result [ "credit_readiness"; "grade" ];
  metrics ← js_path result [ "financial_summary"; "metrics" ];
  data ← js_path result [ "projections" ];
  report ← js_path result [ "ai_report" ];
  cards ← MetricsGrid_of metrics;
  Some {| view_gauge := CreditScoreGauge score grade;
          view_metrics := cards;
          view_chart := ForecastChart data;
          view_report := report |}.

End Summary.

(** ** More of what the page shows *)

(** The class that tells the selected language button from the other one:
    [lang === code ? 'bg-blue-600 text-white' : 'text-slate-400']. *)
Definition lang_button_class (lang code : string) : string :=
  if String.eqb lang code then "bg-blue-600 text-white" else "text-slate-400".

(** [{loading && <div>... processing with AI...</div>}] of the uploader. *)
Definition spinner (w : World) : bool :=
  match uploader w with
  | Some m => FileUploader.loading (ustate m)
  | None => false
  end.

(** How often Analyze was clicked in a run of events. *)
Definition is_analyze (ev : Event) : bool :=
  match ev with
  | ClickAnalyze => true
  | _ => false
  end.

Definition analyze_clicks (evs : list Event) : nat :=
  length (List.filter is_analyze evs).

(** ** Book-keeping invariants of the event loop *)

Section Ledger.

Variable REACT_APP_API_URL : option string.

Definition known_language (l : string) : Prop := l = "en" \/ l = "hi".

Definition well_formed_request (req : Request) : Prop :=
  exists (f : File) (l : string),
    req = analysis_request REACT_APP_API_URL f "Retail" l /\ known_language l.

Record ledger (s : System) : Prop := {
  ledger_lang : known_language (App.lang (app (world s)));
  ledger_requests : Forall well_formed_request (network (world s));
  ledger_alerts :
    Forall (fun msg => msg = "Error connecting to backend. See console.")
           (alerts (world s));
  ledger_console :
    Forall (fun line => fst line = "API Error:") (console (world s));
  ledger_pairs : length (alerts (world s)) = length (console (world s));
  ledger_count :
    length (alerts (world s)) + length (inflight s) <= length (network (world s));
  ledger_loading :
    App.loading (app (world s)) = match inflight s with [] => false | _ => true end
}.

End Ledger.

(** * Properties *)

(** ** The metrics grid *)

Section DisplayFacts.

Variable StringToNumber : string -> spec_float.
Variable ObjectToNumber : JsValue -> spec_float.

Local Abbreviation grid := (MetricsGrid StringToNumber ObjectToNumber).
Local Abbreviation card := (card_of StringToNumber ObjectToNumber).
Local Abbreviation badge := (badge_of StringToNumber ObjectToNumber).
Local Abbreviation amount := (amount_of StringToNumber ObjectToNumber).
Local Abbreviation number := (ToNumber StringToNumber ObjectToNumber).

Lemma js_get_absent (o : gmap string JsValue) (k : string) :
  o !! k = None -> js_get o k = JUndefined.
Proof. intros H. unfold js_get. now rewrite H. Qed.

Lemma js_get_present (o : gmap string JsValue) (k : string) (v : JsValue) :
  o !! k = Some v -> js_get o k = v.
Proof. intros H. unfold js_get. now rewrite H. Qed.

Lemma js_or_falsy (a b : JsValue) : truthy a = false -> js_or a b = b.
Proof. intros H. unfold js_or. now rewrite H. Qed.

Lemma js_or_truthy (a b : JsValue) : truthy a = true -> js_or a b = a.
Proof. intros H. unfold js_or. now rewrite H. Qed.

(** Every recognized key has its card, under its own title. *)
Lemma card_of_title (metrics : gmap string JsValue) (k : MetricKey) :
  card_title <$> card metrics k = Some (key_title k).
Proof. destruct k; reflexivity. Qed.

(** The number a card shows is [Number(metrics.key || 0)]. *)
Lemma amount_of_eq (metrics : gmap string JsValue) (k : MetricKey) :
  amount metrics k
  = Some (number (js_or (js_get metrics (key_name k)) (JNum Num.zero))).
Proof. destruct k; reflexivity. Qed.

(** The badge of the net cashflow card follows [metrics.net_cashflow > 0]. *)
Lemma net_cashflow_badge (metrics : gmap string JsValue) :
  badge metrics NetCashflow
  = Some (if Num.gtb (number (js_get metrics "net_cashflow")) Num.zero
          then "HEALTHY" else "STRESS").
Proof. reflexivity. Qed.

(** C9: each of the four recognized metric keys that is absent from the
    metrics mapping is shown as the number zero, whatever else the mapping
    holds. *)
Theorem absent_metric_displays_zero (metrics : gmap string JsValue) (k : MetricKey) :
  metrics !! key_name k = None ->
  exists c : CardView,
    card metrics k = Some c /\
    card_title c = key_title k /\
    card_amount c = Num.zero.
Proof.
  intros Habsent.
  pose proof (amount_of_eq metrics k) as Hamount.
  pose proof (card_of_title metrics k) as Htitle.
  unfold amount_of in Hamount.
  destruct (card metrics k) as [c|] eqn:Hc; [|discriminate].
  exists c. simpl in Hamount, Htitle.
  injection Hamount as Hamount. injection Htitle as Htitle.
  repeat split; [assumption|].
  rewrite Hamount, (js_get_absent _ _ Habsent).
  reflexivity.
Qed.

(** C10: the Total Revenue and Avg Transaction cards are always marked
    healthy and the Total Expenses card always stressed; the Net Cashflow card
    is marked healthy exactly when [net_cashflow] is strictly greater than
    zero, so a net cashflow of zero, or a missing one, is marked stressed. *)
Theorem health_flags (metrics : gmap string JsValue) :
  badge metrics TotalRevenue = Some "HEALTHY" /\
  badge metrics AvgTransaction = Some "HEALTHY" /\
  badge metrics TotalExpenses = Some "STRESS" /\
  (badge metrics NetCashflow = Some "HEALTHY" \/
   badge metrics NetCashflow = Some "STRESS") /\
  (badge metrics NetCashflow = Some "HEALTHY" <->
   SFltb Num.zero (number (js_get metrics "net_cashflow")) = true) /\
  (forall x : spec_float,
     metrics !! "net_cashflow" = Some (JNum x) ->
     (badge metrics NetCashflow = Some "HEALTHY" <-> SFltb Num.zero x = true)) /\
  (forall sign : bool,
     metrics !! "net_cashflow" = Some (JNum (S754_zero sign)) ->
     badge metrics NetCashflow = Some "STRESS") /\
  (metrics !! "net_cashflow" = None ->
   badge metrics NetCashflow = Some "STRESS").
Proof.
  assert (Hiff : badge metrics NetCashflow = Some "HEALTHY" <->
                 SFltb Num.zero (number (js_get metrics "net_cashflow")) = true).
  { rewrite net_cashflow_badge. unfold Num.gtb.
    destruct (SFltb Num.zero (number (js_get metrics "net_cashflow")));
      split; intros H; try reflexivity; discriminate. }
  split; [reflexivity|]. split; [reflexivity|]. split; [reflexivity|].
  split; [|split; [|split; [|split]]].
  - rewrite net_cashflow_badge.
    destruct (Num.gtb _ _); [left | right]; reflexivity.
  - exact Hiff.
  - intros x Hx. rewrite Hiff. now rewrite (js_get_present _ _ _ Hx).
  - intros sign Hz.
    rewrite net_cashflow_badge, (js_get_present _ _ _ Hz). reflexivity.
  - intros Habsent.
    rewrite net_cashflow_badge, (js_get_absent _ _ Habsent). reflexivity.
Qed.

End DisplayFacts.

(** ** The analysis client *)

Section ClientFacts.

Variable REACT_APP_API_URL : option string.

Local Abbreviation client := (uploadAndAnalyze REACT_APP_API_URL).
Local Abbreviation request := (analysis_request REACT_APP_API_URL).

(** The client runs up to one request, the one of the wire contract, and
    what it does next only depends on how that exchange settles. *)
Lemma run_uploadAndAnalyze (file : File) (businessType language : option string)
                           (w : World) :
  exists k : Exchange -> Prog JsValue,
    run (client file businessType language) w
    = Suspended (request file (default "Retail" businessType) (default "en" language))
        k
        (send (request file (default "Retail" businessType) (default "en" language)) w)
    /\ forall (ex : Exchange) (w' : World),
         run (k ex) w'
         = match settle ex with
           | inr response => Finished (inr (data response)) w'
           | inl error =>
               Finished (inl error) (apply_op (ConsoleError "API Error:" error) w')
           end.
Proof.
  eexists. split; [reflexivity|].
  intros ex w'. cbn. destruct (settle ex) as [error|response]; reflexivity.
Qed.

Lemma exec_uploadAndAnalyze (file : File) (businessType language : option string)
                            (net : Request -> Exchange) (w : World) :
  exec net (client file businessType language) w
  = let req := request file (default "Retail" businessType) (default "en" language) in
    match settle (net req) with
    | inr response => (inr (data response), send req w)
    | inl error =>
        (inl error, apply_op (ConsoleError "API Error:" error) (send req w))
    end.
Proof.
  cbn.
  destruct (settle _) as [error|response]; reflexivity.
Qed.

(** C2: every invocation of the client with a file issues exactly one
    request, whatever becomes of it: a POST to [/analysis/run] under the base
    URL, sent as a multipart form with exactly the fields [file],
    [business_type] and [language]; parameters the caller omits read
    ["Retail"] and ["en"]. *)
Theorem uploadAndAnalyze_posts_once (file : File) (businessType language : option string)
                                    (net : Request -> Exchange) (w : World) :
  (exists req : Request,
     network (snd (exec net (client file businessType language) w))
     = (network w ++ [req])%list /\
     req_method req = "POST" /\
     req_url req = API_BASE_URL REACT_APP_API_URL ++ "/analysis/run" /\
     req_headers req = [ ("Content-Type", "multipart/form-data") ] /\
     map fst (req_body req) = [ "file"; "business_type"; "language" ] /\
     req_body req = [ ("file", FormFile file);
                      ("business_type", FormText (default "Retail" businessType));
                      ("language", FormText (default "en" language)) ])
  /\ (exists req : Request,
        network (snd (exec net (client file None None) w))
        = (network w ++ [req])%list /\
        req_body req = [ ("file", FormFile file);
                         ("business_type", FormText "Retail");
                         ("language", FormText "en") ]).
Proof.
  rewrite !exec_uploadAndAnalyze. cbn zeta.
  split.
  - exists (request file (default "Retail" businessType) (default "en" language)).
    split; [destruct (settle _); reflexivity|].
    repeat split.
  - exists (request file "Retail" "en").
    split; [destruct (settle _); reflexivity | reflexivity].
Qed.

(** C3, as the code has it: whatever the exchange does, the call settles.
    It rejects with the axios error unchanged when there was no reply or the
    status was outside 200..299, after writing that error to the console as
    one line labelled "API Error:", and the two kinds are told apart by the
    error.  Otherwise it resolves with the body as received, which no schema
    is applied to, and writes nothing; so no failure of the client is a
    schema failure.  Besides the one request and that console line the page
    is left as it was. *)
Theorem uploadAndAnalyze_settles (file : File) (businessType language : option string)
                                 (net : Request -> Exchange) (w : World) :
  let req := request file (default "Retail" businessType) (default "en" language) in
  let outcome := fst (exec net (client file businessType language) w) in
  let final := snd (exec net (client file businessType language) w) in
  outcome
  = match net req with
    | NoReply reason => inl (NetworkError reason)
    | Reply s body =>
        if validateStatus s then inr body
        else inl (BadStatus {| status := s; data := body |})
    end
  /\ match outcome with
     | inr body => exists s : Z, net req = Reply s body /\ validateStatus s = true
     | inl error =>
         failure_kind error <> SchemaError /\
         match net req with
         | NoReply _ => failure_kind error = TransportError
         | Reply _ _ => failure_kind error = ServerError
         end
     end
  /\ console final
     = match outcome with
       | inl error => (console w ++ [("API Error:", error)])%list
       | inr _ => console w
       end
  /\ network final = (network w ++ [req])%list
  /\ alerts final = alerts w
  /\ app final = app w
  /\ uploader final = uploader w.
Proof.
  cbn zeta. rewrite exec_uploadAndAnalyze. cbn zeta.
  destruct (net _) as [reason|s body]; cbn.
  - repeat split; discriminate.
  - destruct (validateStatus s) eqn:Hs; cbn.
    + split; [reflexivity|]. split; [|repeat split].
      exists s. split; [reflexivity|assumption].
    + repeat split; discriminate.
Qed.

(** C1, as the code has it: the body of a reply with a success status is
    returned as it was received, whatever it is, and it is that very value
    that [handleAnalysis] stores for the display layer; so a body without a
    score is handed on without a score. *)
Theorem uploadAndAnalyze_returns_body (file : File) (businessType language : option string)
                                      (s : Z) (body : JsValue) (w : World) :
  validateStatus s = true ->
  let req := request file (default "Retail" businessType) (default "en" language) in
  exec (fun _ => Reply s body) (client file businessType language) w
  = (inr body, send req w)
  /\ forall lang : string,
       App.result (app (snd (exec (fun _ => Reply s body)
                               (handleAnalysis REACT_APP_API_URL lang file) w)))
       = body.
Proof.
  intros Hs. cbn zeta. split.
  - rewrite exec_uploadAndAnalyze. cbn. now rewrite Hs.
  - intros lang. cbn. rewrite Hs. cbn. unfold render. cbn.
    destruct (truthy body); [reflexivity|].
    destruct (uploader w); reflexivity.
Qed.

End ClientFacts.

(** ** The upload workflow *)

Section WorkflowFacts.

Variable REACT_APP_API_URL : option string.
Variable accepted : JsValue -> bool.

Local Abbreviation request := (analysis_request REACT_APP_API_URL).
Local Abbreviation on_upload := (handleAnalysis REACT_APP_API_URL).
Local Abbreviation next := (step REACT_APP_API_URL accepted).
Local Abbreviation after := (steps REACT_APP_API_URL accepted initial_system).
Local Abbreviation inv := (invariant REACT_APP_API_URL).

(** [handleUpload] with a file runs up to the request of [uploadAndAnalyze]
    and, once the exchange has settled, to its end without another one. *)
Lemma run_handleUpload (i : nat) (l : string) (f : File) (w : World) :
  exists k : Exchange -> Prog unit,
    run (handleUpload i (on_upload l) (Some f)) w
    = Suspended (request f "Retail" l) k (submitted i (request f "Retail" l) w)
    /\ completes_as k i.
Proof.
  eexists. split; [reflexivity|].
  intros ex w'. cbn. unfold settled.
  destruct (settle ex) as [error|response]; reflexivity.
Qed.

(** Without a file [handleUpload] returns at once. *)
Lemma run_handleUpload_no_file (i : nat) (onUploadSuccess : File -> Prog unit)
                               (w : World) :
  run (handleUpload i onUploadSuccess None) w = Finished (inr tt) w.
Proof. reflexivity. Qed.

Ltac open_world w :=
  let a := fresh "a" in
  destruct w as [a ? ? ? ? ?]; destruct a as [? ? ?]; cbn in *.

(** The page while the request is in flight. *)
Lemma submitted_world (w : World) (m : Mounted) (req : Request) :
  uploader w = Some m ->
  submitted (inst m) req w
  = {| app := {| App.result := App.result (app w);
                 App.loading := true;
                 App.lang := App.lang (app w) |};
       uploader := Some {| inst := inst m;
                           ustate := {| FileUploader.loading := true;
                                        FileUploader.file :=
                                          FileUploader.file (ustate m) |} |};
       mounts := mounts w;
       alerts := alerts w;
       console := console w;
       network := (network w ++ [req])%list |}.
Proof.
  intros Hm. open_world w. subst.
  unfold submitted, with_uploader. cbn. rewrite Nat.eqb_refl. reflexivity.
Qed.

(** The page after a failed exchange: an alert, and the uploader as it was. *)
Lemma settled_failure (w : World) (m : Mounted) (ex : Exchange) (error : AxiosError) :
  uploader w = Some m ->
  truthy (App.result (app w)) = false ->
  settle ex = inl error ->
  settled (inst m) ex w
  = {| app := {| App.result := App.result (app w);
                 App.loading := false;
                 App.lang := App.lang (app w) |};
       uploader := Some {| inst := inst m;
                           ustate := {| FileUploader.loading := false;
                                        FileUploader.file :=
                                          FileUploader.file (ustate m) |} |};
       mounts := mounts w;
       alerts := (alerts w ++ ["Error connecting to backend. See console."])%list;
       console := (console w ++ [("API Error:", error)])%list;
       network := network w |}.
Proof.
  intros Hm Hr Hex. open_world w. subst.
  unfold settled. rewrite Hex. cbn.
  unfold with_uploader. cbn. rewrite Nat.eqb_refl. reflexivity.
Qed.

(** The page after a successful exchange with a truthy body: the result
    view, and no uploader. *)
Lemma settled_truthy (w : World) (i : nat) (ex : Exchange) (response : AxiosResponse) :
  settle ex = inr response ->
  truthy (data response) = true ->
  settled i ex w
  = {| app := {| App.result := data response;
                 App.loading := false;
                 App.lang := App.lang (app w) |};
       uploader := None;
       mounts := mounts w;
       alerts := alerts w;
       console := console w;
       network := network w |}.
Proof.
  intros Hex Ht. open_world w.
  unfold settled. rewrite Hex. cbn.
  unfold render. cbn. rewrite Ht. reflexivity.
Qed.

(** The page after a successful exchange with a falsy body: the upload view
    again, with nothing to tell it from before the submission. *)
Lemma settled_falsy (w : World) (m : Mounted) (ex : Exchange) (response : AxiosResponse) :
  uploader w = Some m ->
  settle ex = inr response ->
  truthy (data response) = false ->
  settled (inst m) ex w
  = {| app := {| App.result := data response;
                 App.loading := false;
                 App.lang := App.lang (app w) |};
       uploader := Some {| inst := inst m;
                           ustate := {| FileUploader.loading := false;
                                        FileUploader.file :=
                                          FileUploader.file (ustate m) |} |};
       mounts := mounts w;
       alerts := alerts w;
       console := console w;
       network := network w |}.
Proof.
  intros Hm Hex Ht. open_world w. subst.
  unfold settled. rewrite Hex. cbn.
  unfold render. cbn. rewrite Ht. cbn.
  unfold with_uploader. cbn. rewrite Nat.eqb_refl. reflexivity.
Qed.


Lemma new_alerts_self (w : World) : new_alerts w w = [].
Proof. unfold new_alerts. apply drop_all. Qed.

Lemma coherent_mounted (w : World) (m : Mounted) :
  coherent w -> uploader w = Some m -> truthy (App.result (app w)) = false.
Proof.
  unfold coherent. intros Hc Hm.
  destruct (truthy (App.result (app w))); [congruence | reflexivity].
Qed.

Lemma coherent_result (w : World) :
  coherent w -> truthy (App.result (app w)) = true -> uploader w = None.
Proof. unfold coherent. intros Hc Ht. now rewrite Ht in Hc. Qed.

Lemma invariant_initial : inv initial_system.
Proof.
  split.
  - cbn. now exists {| inst := 0; ustate := FileUploader.initial |}.
  - left. split; [reflexivity|]. cbn. intros m [= <-]. reflexivity.
  - constructor.
Qed.

(** Choosing a file only changes the file of the mounted uploader. *)
Lemma invariant_choose (s : System) (files0 : option File) :
  inv s -> inv (next s (ChooseFile files0)).
Proof.
  intros [Hc Hf Hn]. destruct s as [w fl]. cbn in *.
  unfold file_input. destruct (uploader w) as [m|] eqn:Hm; cbn;
    [|now split].
  unfold dispatch. cbn. unfold with_uploader. rewrite Hm, Nat.eqb_refl.
  split; cbn.
  - unfold coherent in *. cbn. destruct (truthy _); [congruence | eauto].
  - destruct Hf as [[Hfl Hq] | (p & m' & Hfl & Hm' & Hl & Hk)]; cbn in *.
    + left. split; [assumption|]. cbn. intros m' [= <-]. cbn. now apply Hq.
    + right. exists p, {| inst := inst m;
                          ustate := {| FileUploader.loading := true;
                                       FileUploader.file := files0 |} |}.
      assert (m' = m) as -> by congruence.
      cbn. rewrite Hl. repeat split; assumption.
  - assumption.
Qed.

(** The language buttons only change [lang]. *)
Lemma invariant_lang (s : System) (hi : bool) :
  inv s -> inv (next s (ClickLang hi)).
Proof.
  intros [Hc Hf Hn]. destruct s as [w fl]. cbn in *.
  split; cbn; assumption.
Qed.

(** Submitting is offered by a quiet page only, and makes it busy. *)
Lemma invariant_analyze (s : System) :
  inv s -> inv (next s ClickAnalyze).
Proof.
  intros [Hc Hf Hn]. destruct s as [w fl].
  unfold step, click, analyze_button. cbn [world inflight] in *.
  destruct (uploader w) as [m|] eqn:Hm; [|now split].
  destruct (FileUploader.file (ustate m)) as [f|] eqn:Hfile; [|now split].
  destruct (FileUploader.loading (ustate m)) eqn:Hload; [now split|].
  destruct Hf as [[Hfl Hq] | (p & m' & Hfl & Hm' & Hl & Hk)];
    cbn [world inflight] in *; [|congruence].
  destruct (run_handleUpload (inst m) (App.lang (app w)) f w) as (k & Hrun & Hk).
  unfold dispatch. rewrite Hrun, Hfl. cbn [app_nil_l].
  rewrite (submitted_world _ _ _ Hm).
  split; cbn.
  - unfold coherent in *. cbn. destruct (truthy _); [congruence | eauto].
  - right. eexists _, _. cbn. repeat split. exact Hk.
  - apply Forall_app. split; [assumption|].
    constructor; [|constructor]. now exists f, (App.lang (app w)).
Qed.

(** "New Scan" is there on a result page that rendered, and nowhere else. *)
Lemma new_scan_button_cases (w : World) :
  (new_scan_button accepted w = Some (perform (SetResult JNull)) /\
   page accepted w = ResultPage /\
   truthy (App.result (app w)) = true /\
   displays accepted (App.result (app w)) = true) \/
  (new_scan_button accepted w = None /\ page accepted w <> ResultPage).
Proof.
  unfold new_scan_button, page.
  destruct (truthy (App.result (app w))); [|right; split; [reflexivity | discriminate]].
  destruct (displays accepted (App.result (app w)));
    [left; repeat split | right; split; [reflexivity | discriminate]].
Qed.

(** "New Scan" is offered by the result view only, and mounts a fresh
    uploader. *)
Lemma invariant_new_scan (s : System) :
  inv s -> inv (next s ClickNewScan).
Proof.
  intros [Hc Hf Hn]. destruct s as [w fl]. unfold step, click.
  cbn [world inflight] in *.
  destruct (new_scan_button_cases w) as [(-> & _ & Ht & _) | (-> & _)];
    [|now split].
  pose proof (coherent_result _ Hc Ht) as Hnone.
  unfold dispatch. cbn. unfold render. cbn. rewrite Hnone.
  split; cbn.
  - unfold coherent. cbn. eauto.
  - destruct Hf as [[Hfl Hq] | (p & m' & Hfl & Hm' & Hl & Hk)]; cbn in *;
      [|congruence].
    left. split; [assumption|]. cbn. intros m [= <-]. reflexivity.
  - assumption.
Qed.

(** Settling the exchange in flight runs the handlers to their end. *)
Lemma invariant_settle (s : System) (n : nat) (ex : Exchange) :
  inv s -> inv (next s (Settle n ex)).
Proof.
  intros [Hc Hf Hn]. destruct s as [w fl]. cbn in *.
  destruct Hf as [[Hfl Hq] | (p & m & Hfl & Hm & Hl & Hk)]; cbn in *; subst fl.
  { rewrite lookup_nil. split; cbn; [assumption| |assumption].
    left. now split. }
  destruct n as [|n]; cbn; [|split; cbn; [assumption| |assumption]].
  2:{ right. now exists p, m. }
  unfold dispatch. rewrite Hk.
  pose proof (coherent_mounted _ _ Hc Hm) as Hr.
  destruct (settle ex) as [error|response] eqn:Hex.
  - rewrite (settled_failure _ _ _ _ Hm Hr Hex).
    split; cbn.
    + unfold coherent. cbn. rewrite Hr. eauto.
    + left. split; [reflexivity|]. cbn. intros m' [= <-]. reflexivity.
    + assumption.
  - destruct (truthy (data response)) eqn:Ht.
    + rewrite (settled_truthy _ _ _ _ Hex Ht).
      split; cbn.
      * unfold coherent. cbn. now rewrite Ht.
      * left. split; [reflexivity|]. cbn. intros m' [=].
      * assumption.
    + rewrite (settled_falsy _ _ _ _ Hm Hex Ht).
      split; cbn.
      * unfold coherent. cbn. rewrite Ht. eauto.
      * left. split; [reflexivity|]. cbn. intros m' [= <-]. reflexivity.
      * assumption.
Qed.

Lemma invariant_step (s : System) (ev : Event) :
  inv s -> inv (next s ev).
Proof.
  destruct ev.
  - apply invariant_choose.
  - apply invariant_analyze.
  - apply invariant_lang.
  - apply invariant_new_scan.
  - apply invariant_settle.
Qed.

Lemma invariant_steps (evs : list Event) (s : System) :
  inv s -> inv (steps REACT_APP_API_URL accepted s evs).
Proof.
  revert s. induction evs as [|ev evs IH]; intros s Hs; cbn.
  - assumption.
  - apply IH. now apply invariant_step.
Qed.

(** Every state the page can reach satisfies the invariant. *)
Lemma invariant_after (evs : list Event) : inv (after evs).
Proof. apply invariant_steps, invariant_initial. Qed.


(** What [FileSelected] means on a reachable page. *)
Lemma file_selected_page (s : System) :
  inv s -> phase (world s) = FileSelected ->
  exists (m : Mounted) (f : File),
    uploader (world s) = Some m /\
    FileUploader.file (ustate m) = Some f /\
    FileUploader.loading (ustate m) = false /\
    truthy (App.result (app (world s))) = false /\
    inflight s = [].
Proof.
  intros [Hc Hf Hn]. unfold phase, phase_since. rewrite new_alerts_self.
  destruct (truthy (App.result (app (world s)))) eqn:Ht; [discriminate|].
  destruct (uploader (world s)) as [m|] eqn:Hm; [|discriminate].
  destruct (FileUploader.loading (ustate m)) eqn:Hl; [discriminate|].
  destruct (FileUploader.file (ustate m)) as [f|] eqn:Hfile; [|discriminate].
  intros _. exists m, f. repeat split; try assumption.
  destruct Hf as [[Hfl _] | (p & m' & _ & Hm' & Hl' & _)]; [assumption|].
  congruence.
Qed.

(** The Analyze button, when it is shown, starts [handleUpload]. *)
Lemma click_analyze (s : System) (m : Mounted) (f : File) :
  uploader (world s) = Some m ->
  FileUploader.file (ustate m) = Some f ->
  FileUploader.loading (ustate m) = false ->
  exists k : Exchange -> Prog unit,
    let req := request f "Retail" (App.lang (app (world s))) in
    next s ClickAnalyze
    = {| world := submitted (inst m) req (world s);
         inflight := (inflight s ++
                      [{| pending_request := req; pending_resume := k |}])%list |}
    /\ completes_as k (inst m).
Proof.
  intros Hm Hfile Hl.
  destruct (run_handleUpload (inst m) (App.lang (app (world s))) f (world s))
    as (k & Hrun & Hk).
  exists k. split; [|exact Hk].
  unfold step, click, analyze_button. rewrite Hm, Hfile, Hl.
  unfold dispatch. now rewrite Hrun.
Qed.

(** The Analyze button is not shown without a file, nor next to the spinner. *)
Lemma click_analyze_hidden (s : System) :
  selected_file (world s) = None \/ phase (world s) = Submitting ->
  next s ClickAnalyze = s.
Proof.
  unfold step, click, analyze_button, selected_file, phase, phase_since.
  destruct (uploader (world s)) as [m|]; [|reflexivity].
  intros [Hnone | Hsub].
  - now rewrite Hnone.
  - destruct (FileUploader.file (ustate m)); [|reflexivity].
    destruct (FileUploader.loading (ustate m)); [reflexivity|].
    destruct (truthy _); [discriminate|].
    destruct (new_alerts _ _); discriminate.
Qed.

(** Settling the only exchange in flight. *)
Lemma settle_single (w : World) (p : Pending) (i : nat) (ex : Exchange) :
  completes_as (pending_resume p) i ->
  next {| world := w; inflight := [p] |} (Settle 0 ex)
  = {| world := settled i ex w; inflight := [] |}.
Proof. intros Hk. cbn. unfold dispatch. now rewrite Hk. Qed.

(** A submission from [FileSelected], followed until its exchange settles. *)
Lemma submit_and_settle (s : System) (ex : Exchange) :
  inv s -> phase (world s) = FileSelected ->
  exists (m : Mounted) (f : File),
    let req := request f "Retail" (App.lang (app (world s))) in
    uploader (world s) = Some m /\
    FileUploader.file (ustate m) = Some f /\
    truthy (App.result (app (world s))) = false /\
    world (next s ClickAnalyze) = submitted (inst m) req (world s) /\
    length (inflight (next s ClickAnalyze)) = 1 /\
    next (next s ClickAnalyze) (Settle 0 ex)
    = {| world := settled (inst m) ex (submitted (inst m) req (world s));
         inflight := [] |}.
Proof.
  intros Hinv Hphase.
  destruct (file_selected_page s Hinv Hphase) as (m & f & Hm & Hfile & Hl & Ht & Hfl).
  destruct (click_analyze s m f Hm Hfile Hl) as (k & Hclick & Hk).
  cbn zeta in Hclick.
  exists m, f. cbn zeta. rewrite Hclick, Hfl. cbn [world inflight app_nil_l].
  repeat split; try assumption.
  now apply settle_single.
Qed.

Lemma phase_submitted (w : World) (m : Mounted) (req : Request) :
  uploader w = Some m ->
  truthy (App.result (app w)) = false ->
  phase (submitted (inst m) req w) = Submitting.
Proof.
  intros Hm Ht. rewrite (submitted_world _ _ _ Hm).
  unfold phase, phase_since. cbn. now rewrite Ht.
Qed.

(** C7: on every page the workflow can reach at most one analysis request is
    in flight; one is in flight exactly while the workflow is [Submitting],
    and a submit attempted then changes nothing and sends nothing. *)
Theorem single_flight (evs : list Event) :
  let s := after evs in
  length (inflight s) <= 1 /\
  (phase (world s) = Submitting <-> inflight s <> []) /\
  (phase (world s) = Submitting ->
   next s ClickAnalyze = s /\
   network (world (next s ClickAnalyze)) = network (world s) /\
   inflight (next s ClickAnalyze) = inflight s).
Proof.
  cbn zeta. pose proof (invariant_after evs) as [Hc Hf Hn].
  set (s := after evs) in *. clearbody s.
  split; [|split].
  - destruct Hf as [[Hfl _] | (p & m & Hfl & _)]; rewrite Hfl; cbn; lia.
  - unfold phase, phase_since. rewrite new_alerts_self.
    destruct Hf as [[Hfl Hq] | (p & m & Hfl & Hm & Hl & _)]; rewrite Hfl.
    + split; [|congruence].
      destruct (truthy _); [discriminate|].
      destruct (uploader (world s)) as [m|] eqn:Hm; [|discriminate].
      rewrite (Hq m eq_refl).
      destruct (FileUploader.file (ustate m)); discriminate.
    + rewrite (coherent_mounted _ _ Hc Hm), Hm, Hl. split; [discriminate | reflexivity].
  - intros Hsub.
    rewrite (click_analyze_hidden s (or_intror Hsub)). now repeat split.
Qed.

(** C8: with no file selected the upload action does nothing: [handleUpload]
    returns before it touches the page, the Analyze button is not there, and
    so every request that was ever sent carries the file it was started
    with. *)
Theorem no_file_no_request :
  (forall (i : nat) (onUploadSuccess : File -> Prog unit) (w : World),
     run (handleUpload i onUploadSuccess None) w = Finished (inr tt) w) /\
  (forall s : System, selected_file (world s) = None -> next s ClickAnalyze = s) /\
  (forall (evs : list Event) (req : Request),
     In req (network (world (after evs))) ->
     exists (f : File) (l : string),
       req = request f "Retail" l /\
       req_body req = [ ("file", FormFile f);
                        ("business_type", FormText "Retail");
                        ("language", FormText l) ]).
Proof.
  split; [|split].
  - intros i onUploadSuccess w. apply run_handleUpload_no_file.
  - intros s Hnone. apply click_analyze_hidden. now left.
  - intros evs req Hin.
    pose proof (inv_network _ _ (invariant_after evs)) as Hn.
    rewrite Forall_forall in Hn.
    destruct (Hn req) as (f & l & ->).
    + now apply list_elem_of_In.
    + exists f, l. split; reflexivity.
Qed.

(** [handleUpload] itself does not look at [loading]: what keeps a second
    submission from starting is that the button is not rendered. *)
Remark handleUpload_ignores_loading (i : nat) (l : string) (f : File) (w : World) :
  exists k : Exchange -> Prog unit,
    run (handleUpload i (on_upload l) (Some f)) w
    = Suspended (request f "Retail" l) k (submitted i (request f "Retail" l) w).
Proof.
  destruct (run_handleUpload i l f w) as (k & Hrun & _). now exists k.
Qed.

End WorkflowFacts.

(** ** The handlers, whatever they are composed with *)

Section HandlerFacts.

Variable REACT_APP_API_URL : option string.

(** Sequencing: the second part runs on the page the first one left, unless
    the first one threw. *)
Lemma exec_bind {A B : Type} (net : Request -> Exchange) (p : Prog A) (f : A -> Prog B) (w : World) :
  exec net (bind p f) w
  = match exec net p w with
    | (inl e, w') => (inl e, w')
    | (inr a, w') => exec net (f a) w'
    end.
Proof.
  revert w. induction p as [a|e|op k IH|req k IH]; intros w; cbn.
  - reflexivity.
  - reflexivity.
  - apply IH.
  - apply IH.
Qed.

(** [catch] runs on the page as the [try] block left it when it threw. *)
Lemma exec_try_catch {A : Type} (net : Request -> Exchange) (p : Prog A)
                     (h : AxiosError -> Prog A) (w : World) :
  exec net (try_catch p h) w
  = match exec net p w with
    | (inl e, w') => exec net (h e) w'
    | (inr a, w') => (inr a, w')
    end.
Proof.
  revert w. induction p as [a|e|op k IH|req k IH]; intros w; cbn.
  - reflexivity.
  - reflexivity.
  - apply IH.
  - apply IH.
Qed.

(** [finally] runs on both exits; the exit of the [try] block is kept unless
    the [finally] block throws itself. *)
Lemma exec_try_finally {A : Type} (net : Request -> Exchange) (p : Prog A)
                       (f : Prog unit) (w : World) :
  exec net (try_finally p f) w
  = match exec net p w with
    | (r, w') =>
        match exec net f w' with
        | (inl e, w'') => (inl e, w'')
        | (inr _, w'') => (r, w'')
        end
    end.
Proof.
  revert w. induction p as [a|e|op k IH|req k IH]; intros w; cbn.
  - rewrite exec_bind. destruct (exec net f w) as [[e'|[]] w']; reflexivity.
  - rewrite exec_bind. destruct (exec net f w) as [[e'|[]] w']; reflexivity.
  - apply IH.
  - apply IH.
Qed.


(** X1: [handleUpload] around an arbitrary [onUploadSuccess]: it never rejects;
    it raises its own alert exactly when the callback throws; and its last
    act is to switch the spinner of its instance off. *)
Theorem handleUpload_any_callback (i : nat) (onUploadSuccess : File -> Prog unit)
                                  (f : File) (net : Request -> Exchange) (w : World) :
  let out := exec net (onUploadSuccess f) (apply_op (SetLoading i true) w) in
  let final := snd (exec net (handleUpload i onUploadSuccess (Some f)) w) in
  exec net (handleUpload i onUploadSuccess (Some f)) w
  = (inr tt,
     apply_op (SetLoading i false)
       match fst out with
       | inl _ => apply_op (Alert "Upload failed. Check console.") (snd out)
       | inr _ => snd out
       end)
  /\ (forall m : Mounted,
        uploader final = Some m -> inst m = i ->
        FileUploader.loading (ustate m) = false)
  /\ alerts final
     = match fst out with
       | inl _ => (alerts (snd out) ++ ["Upload failed. Check console."])%list
       | inr _ => alerts (snd out)
       end.
Proof.
  cbn zeta.
  assert (Hexec :
    exec net (handleUpload i onUploadSuccess (Some f)) w
    = (inr tt,
       apply_op (SetLoading i false)
         match fst (exec net (onUploadSuccess f) (apply_op (SetLoading i true) w)) with
         | inl _ =>
             apply_op (Alert "Upload failed. Check console.")
               (snd (exec net (onUploadSuccess f) (apply_op (SetLoading i true) w)))
         | inr _ =>
             snd (exec net (onUploadSuccess f) (apply_op (SetLoading i true) w))
         end)).
  { unfold handleUpload, perform. cbn [bind exec].
    rewrite exec_try_finally, exec_try_catch, exec_bind.
    destruct (exec net (onUploadSuccess f) _) as [[e|[]] w']; reflexivity. }
  rewrite Hexec. cbn [fst snd].
  split; [reflexivity|]. split.
  - intros m Hm Hi.
    set (w' := match fst _ with inl _ => _ | inr _ => _ end) in *. clearbody w'.
    cbn in Hm. unfold with_uploader in Hm.
    destruct (uploader w') as [m'|] eqn:Hm'; [|rewrite Hm' in Hm; discriminate].
    destruct (Nat.eqb (inst m') i) eqn:Heq.
    + injection Hm as <-. reflexivity.
    + rewrite Hm' in Hm. injection Hm as <-.
      apply Nat.eqb_neq in Heq. contradiction.
  - destruct (fst _); cbn; unfold with_uploader;
      match goal with |- context [uploader ?x] => destruct (uploader x) as [m'|] end;
      try destruct (Nat.eqb _ _); reflexivity.
Qed.

(** X2: [handleAnalysis], whatever the exchange and whatever the page: it
    sends the one request with business type ["Retail"], never rejects, and
    ends with its [loading] cleared; it stores the body when the call
    returned, and logs and alerts when it threw. *)
Theorem handleAnalysis_any_exchange (lang : string) (file : File)
                                    (net : Request -> Exchange) (w : World) :
  let req := analysis_request REACT_APP_API_URL file "Retail" lang in
  let final := snd (exec net (handleAnalysis REACT_APP_API_URL lang file) w) in
  exec net (handleAnalysis REACT_APP_API_URL lang file) w
  = (inr tt,
     apply_op (SetAppLoading false)
       match settle (net req) with
       | inr response =>
           apply_op (SetResult (data response))
             (send req (apply_op (SetAppLoading true) w))
       | inl error =>
           apply_op (Alert "Error connecting to backend. See console.")
             (apply_op (ConsoleError "API Error:" error)
                (send req (apply_op (SetAppLoading true) w)))
       end) /\
  App.loading (app final) = false /\
  network final = (network w ++ [req])%list /\
  App.lang (app final) = App.lang (app w).
Proof.
  cbn zeta.
  assert (Hexec :
    exec net (handleAnalysis REACT_APP_API_URL lang file) w
    = (inr tt,
       apply_op (SetAppLoading false)
         match settle (net (analysis_request REACT_APP_API_URL file "Retail" lang)) with
         | inr response =>
             apply_op (SetResult (data response))
               (send (analysis_request REACT_APP_API_URL file "Retail" lang) (apply_op (SetAppLoading true) w))
         | inl error =>
             apply_op (Alert "Error connecting to backend. See console.")
               (apply_op (ConsoleError "API Error:" error)
                  (send (analysis_request REACT_APP_API_URL file "Retail" lang)
                     (apply_op (SetAppLoading true) w)))
         end)).
  { cbn. destruct (settle _) as [error|response]; reflexivity. }
  rewrite Hexec. cbn [snd].
  split; [reflexivity|].
  destruct (settle _) as [error|response]; cbn.
  - repeat split.
  - unfold render. cbn.
    destruct (truthy (data response)); [repeat split|].
    destruct (uploader w); repeat split.
Qed.

End HandlerFacts.

(** ** Book-keeping on every reachable page *)

Section LedgerFacts.

Variable REACT_APP_API_URL : option string.
Variable accepted : JsValue -> bool.

Local Abbreviation request := (analysis_request REACT_APP_API_URL).
Local Abbreviation next := (step REACT_APP_API_URL accepted).
Local Abbreviation after := (steps REACT_APP_API_URL accepted initial_system).
Local Abbreviation inv := (invariant REACT_APP_API_URL).
Local Abbreviation books := (ledger REACT_APP_API_URL).

Lemma ledger_initial : books initial_system.
Proof.
  split; cbn;
    [ left; reflexivity | constructor | constructor | constructor
    | reflexivity | lia | reflexivity ].
Qed.

Lemma ledger_choose (s : System) (files0 : option File) :
  books s -> books (next s (ChooseFile files0)).
Proof.
  intros [Hl Hr Ha Hc Hp Hn Hb]. destruct s as [w fl]. cbn in *.
  unfold file_input. destruct (uploader w) as [m|] eqn:Hm; cbn; [|now split].
  unfold dispatch. cbn. unfold with_uploader. rewrite Hm, Nat.eqb_refl.
  split; cbn; assumption.
Qed.

Lemma ledger_lang_click (s : System) (hi : bool) :
  books s -> books (next s (ClickLang hi)).
Proof.
  intros [Hl Hr Ha Hc Hp Hn Hb]. destruct s as [w fl]. cbn in *.
  split; cbn; try assumption.
  destruct hi; [right | left]; reflexivity.
Qed.

Lemma ledger_new_scan (s : System) :
  books s -> books (next s ClickNewScan).
Proof.
  intros [Hl Hr Ha Hc Hp Hn Hb]. destruct s as [w fl]. unfold step, click.
  cbn [world inflight] in *.
  destruct (new_scan_button_cases accepted w) as [(-> & _) | (-> & _)];
    [|now split].
  unfold dispatch. cbn. unfold render. cbn.
  destruct (uploader w); split; cbn; assumption.
Qed.

Lemma ledger_analyze (s : System) :
  inv s -> books s -> books (next s ClickAnalyze).
Proof.
  intros [Hc Hf Hn] [Hl Hr Ha Hco Hp Hcount Hb]. destruct s as [w fl].
  unfold step, click, analyze_button. cbn [world inflight] in *.
  destruct (uploader w) as [m|] eqn:Hm; [|now split].
  destruct (FileUploader.file (ustate m)) as [f|] eqn:Hfile; [|now split].
  destruct (FileUploader.loading (ustate m)) eqn:Hload; [now split|].
  destruct Hf as [[Hfl Hq] | (p & m' & Hfl & Hm' & Hl' & Hk)];
    cbn [world inflight] in *; [|congruence].
  destruct (run_handleUpload REACT_APP_API_URL (inst m) (App.lang (app w)) f w)
    as (k & Hrun & Hk).
  unfold dispatch. rewrite Hrun, Hfl. cbn [app_nil_l].
  rewrite (submitted_world _ _ _ Hm). subst fl.
  split; cbn in *; try assumption.
  - apply Forall_app. split; [assumption|].
    constructor; [|constructor]. now exists f, (App.lang (app w)).
  - rewrite length_app. cbn. lia.
  - reflexivity.
Qed.

Lemma ledger_settle (s : System) (n : nat) (ex : Exchange) :
  inv s -> books s -> books (next s (Settle n ex)).
Proof.
  intros [Hc Hf Hn] [Hl Hr Ha Hco Hp Hcount Hb]. destruct s as [w fl]. cbn in *.
  destruct Hf as [[Hfl Hq] | (p & m & Hfl & Hm & Hl' & Hk)]; cbn in *; subst fl.
  { rewrite lookup_nil. now split. }
  destruct n as [|n]; cbn; [|now split].
  unfold dispatch. rewrite Hk.
  pose proof (coherent_mounted _ _ Hc Hm) as Hres.
  destruct (settle ex) as [error|response] eqn:Hex.
  - rewrite (settled_failure _ _ _ _ Hm Hres Hex).
    split; cbn in *; try assumption; try reflexivity.
    + apply Forall_app. split; [assumption|]. now repeat constructor.
    + apply Forall_app. split; [assumption|]. now repeat constructor.
    + rewrite !length_app. cbn. lia.
    + rewrite length_app. cbn. lia.
  - destruct (truthy (data response)) eqn:Ht.
    + rewrite (settled_truthy _ _ _ _ Hex Ht).
      split; cbn in *; try assumption; try reflexivity. lia.
    + rewrite (settled_falsy _ _ _ _ Hm Hex Ht).
      split; cbn in *; try assumption; try reflexivity. lia.
Qed.

Lemma ledger_step (s : System) (ev : Event) :
  inv s -> books s -> books (next s ev).
Proof.
  intros Hinv Hb. destruct ev.
  - now apply ledger_choose.
  - now apply ledger_analyze.
  - now apply ledger_lang_click.
  - now apply ledger_new_scan.
  - now apply ledger_settle.
Qed.

Lemma ledger_steps (evs : list Event) (s : System) :
  inv s -> books s -> books (steps REACT_APP_API_URL accepted s evs).
Proof.
  revert s. induction evs as [|ev evs IH]; intros s Hinv Hb; cbn.
  - assumption.
  - apply IH; [now apply invariant_step | now apply ledger_step].
Qed.

Lemma ledger_after (evs : list Event) : books (after evs).
Proof. apply ledger_steps; [apply invariant_initial | apply ledger_initial]. Qed.


(** Only a click on Analyze adds to the requests sent, and it adds one. *)
Lemma network_step (s : System) (ev : Event) :
  inv s ->
  network (world (next s ev)) = network (world s) \/
  (is_analyze ev = true /\
   exists req : Request,
     network (world (next s ev)) = (network (world s) ++ [req])%list).
Proof.
  intros [Hc Hf Hn]. destruct s as [w fl]. destruct ev as [files0| |hi| |n ex].
  - left. cbn. unfold file_input.
    destruct (uploader w) as [m|] eqn:Hm; cbn; [|reflexivity].
    unfold dispatch. cbn. unfold with_uploader. now rewrite Hm, Nat.eqb_refl.
  - unfold step, click, analyze_button. cbn [world inflight] in *.
    destruct (uploader w) as [m|] eqn:Hm; [|now left].
    destruct (FileUploader.file (ustate m)) as [f|] eqn:Hfile; [|now left].
    destruct (FileUploader.loading (ustate m)) eqn:Hload; [now left|].
    right. split; [reflexivity|].
    destruct (run_handleUpload REACT_APP_API_URL (inst m) (App.lang (app w)) f w)
      as (k & Hrun & Hk).
    unfold dispatch. rewrite Hrun. cbn [world].
    rewrite (submitted_world _ _ _ Hm). cbn. eauto.
  - left. reflexivity.
  - left. unfold step, click. cbn [world inflight].
    destruct (new_scan_button_cases accepted w) as [(-> & _) | (-> & _)];
      [|reflexivity].
    unfold dispatch. cbn. unfold render. cbn.
    destruct (uploader w); reflexivity.
  - left. cbn in *.
    destruct Hf as [[Hfl Hq] | (p & m & Hfl & Hm & Hl' & Hk)]; cbn in *; subst fl.
    { now rewrite lookup_nil. }
    destruct n as [|n]; cbn; [|reflexivity].
    unfold dispatch. rewrite Hk.
    pose proof (coherent_mounted _ _ Hc Hm) as Hres.
    destruct (settle ex) as [error|response] eqn:Hex.
    + now rewrite (settled_failure _ _ _ _ Hm Hres Hex).
    + destruct (truthy (data response)) eqn:Ht.
      * now rewrite (settled_truthy _ _ _ _ Hex Ht).
      * now rewrite (settled_falsy _ _ _ _ Hm Hex Ht).
Qed.

Lemma network_steps (evs : list Event) (s : System) :
  inv s ->
  length (network (world (steps REACT_APP_API_URL accepted s evs)))
  <= length (network (world s)) + analyze_clicks evs.
Proof.
  revert s. induction evs as [|ev evs IH]; intros s Hinv.
  - cbn. lia.
  - change (steps REACT_APP_API_URL accepted s (ev :: evs))
      with (steps REACT_APP_API_URL accepted (next s ev) evs).
    specialize (IH (next s ev) (invariant_step _ _ s ev Hinv)).
    assert (Hev : length (network (world (next s ev)))
                  <= length (network (world s)) + (if is_analyze ev then 1 else 0)).
    { destruct (network_step s ev Hinv) as [-> | (-> & req & ->)].
      - lia.
      - rewrite length_app. cbn. lia. }
    unfold analyze_clicks in *. cbn [List.filter].
    destruct (is_analyze ev); cbn [length]; lia.
Qed.

(** X3: the only alert the page ever raises is the one of [handleAnalysis]; the
    alert in [handleUpload]'s own [catch] is never reached.  Every alert comes
    with one [console.error] line of the client. *)
Theorem alerts_are_backend_errors (evs : list Event) :
  let w := world (after evs) in
  Forall (fun msg => msg = "Error connecting to backend. See console.") (alerts w) /\
  ~ In "Upload failed. Check console." (alerts w) /\
  length (alerts w) = length (console w) /\
  Forall (fun line => fst line = "API Error:") (console w).
Proof.
  cbn zeta. destruct (ledger_after evs) as [_ _ Ha Hc Hp _ _].
  repeat split; try assumption.
  intros Hin. rewrite Forall_forall in Ha.
  apply list_elem_of_In, Ha in Hin. discriminate Hin.
Qed.

(** X4: requests are sent by clicks on Analyze and by nothing else: no event
    other than that click changes what has been sent (a failure is not
    retried), there are never more requests than clicks, and every alert and
    every exchange still in flight is accounted for by a request of its own. *)
Theorem requests_only_from_clicks (evs : list Event) :
  let s := after evs in
  length (network (world s)) <= analyze_clicks evs /\
  length (alerts (world s)) + length (inflight s) <= length (network (world s)) /\
  (forall ev : Event,
     is_analyze ev = false ->
     network (world (next s ev)) = network (world s)).
Proof.
  cbn zeta. split; [|split].
  - apply (network_steps evs initial_system (invariant_initial _)).
  - apply (ledger_count _ _ (ledger_after evs)).
  - intros ev Hev.
    destruct (network_step _ ev (invariant_after REACT_APP_API_URL accepted evs)) as [H | (H & _)];
      [assumption | congruence].
Qed.

(** X5: the language is always one of ["en"] and ["hi"]: on the page, where
    exactly one of the two buttons is highlighted, and in every request that
    was sent. *)
Theorem language_is_en_or_hi (evs : list Event) :
  let w := world (after evs) in
  known_language (App.lang (app w)) /\
  Forall (well_formed_request REACT_APP_API_URL) (network w) /\
  ((lang_button_class (App.lang (app w)) "en" = "bg-blue-600 text-white" /\
    lang_button_class (App.lang (app w)) "hi" = "text-slate-400") \/
   (lang_button_class (App.lang (app w)) "en" = "text-slate-400" /\
    lang_button_class (App.lang (app w)) "hi" = "bg-blue-600 text-white")).
Proof.
  cbn zeta. destruct (ledger_after evs) as [Hl Hr _ _ _ _ _].
  split; [assumption|]. split; [assumption|].
  destruct Hl as [-> | ->]; [left | right]; split; reflexivity.
Qed.

(** X6: the two loading flags never disagree: [App]'s own [loading] is set
    exactly while the uploader shows its spinner, which is exactly while an
    exchange is in flight. *)
Theorem loading_flags_agree (evs : list Event) :
  let s := after evs in
  App.loading (app (world s)) = spinner (world s) /\
  (spinner (world s) = true <-> inflight s <> []).
Proof.
  cbn zeta. pose proof (ledger_loading _ _ (ledger_after evs)) as Hb.
  destruct (invariant_after REACT_APP_API_URL accepted evs) as [Hc Hf _].
  set (s := after evs) in *. clearbody s. unfold spinner.
  destruct Hf as [[Hfl Hq] | (p & m & Hfl & Hm & Hl & _)]; rewrite Hfl in *.
  - rewrite Hb.
    destruct (uploader (world s)) as [m|] eqn:Hm.
    + rewrite (Hq m eq_refl). split; [reflexivity|]. split; [discriminate | congruence].
    + split; [reflexivity|]. split; [discriminate | congruence].
  - rewrite Hb, Hm, Hl. split; [reflexivity|]. split; [discriminate | reflexivity].
Qed.

End LedgerFacts.

(** ** How a submission ends, and what "New Scan" does *)

Section OutcomeFacts.

Variable REACT_APP_API_URL : option string.
Variable accepted : JsValue -> bool.

Local Abbreviation request := (analysis_request REACT_APP_API_URL).
Local Abbreviation next := (step REACT_APP_API_URL accepted).
Local Abbreviation after := (steps REACT_APP_API_URL accepted initial_system).
Local Abbreviation inv := (invariant REACT_APP_API_URL).

Lemma page_upload (w : World) :
  truthy (App.result (app w)) = false -> page accepted w = UploadPage.
Proof. intros Ht. unfold page. now rewrite Ht. Qed.

(** While an exchange is in flight, no event but its settling touches it,
    the result, the logs or the spinner. *)
Lemma flight_step (s : System) (ev : Event) :
  inv s -> inflight s <> [] -> is_settle ev = false ->
  inflight (next s ev) = inflight s /\
  App.result (app (world (next s ev))) = App.result (app (world s)) /\
  alerts (world (next s ev)) = alerts (world s).
Proof.
  intros [Hc Hf Hn] Hbusy Hev. destruct s as [w fl]. cbn [world inflight] in *.
  destruct Hf as [[Hfl _] | (p & m & Hfl & Hm & Hl & Hk)];
    cbn [world inflight] in *; [contradiction|].
  pose proof (coherent_mounted _ _ Hc Hm) as Ht.
  destruct ev as [files0| |hi| |n ex]; try discriminate.
  - cbn. unfold file_input. rewrite Hm. cbn.
    unfold dispatch. cbn. unfold with_uploader. rewrite Hm, Nat.eqb_refl.
    repeat split.
  - unfold step, click, analyze_button. cbn [world inflight]. rewrite Hm, Hl.
    destruct (FileUploader.file (ustate m)); repeat split.
  - repeat split.
  - unfold step, click. cbn [world inflight].
    destruct (new_scan_button_cases accepted w) as [(_ & _ & Ht' & _) | (-> & _)];
      [congruence | repeat split].
Qed.

Lemma flight_steps (mid : list Event) (s : System) :
  inv s -> inflight s <> [] -> Forall (fun ev => is_settle ev = false) mid ->
  inv (steps REACT_APP_API_URL accepted s mid) /\
  inflight (steps REACT_APP_API_URL accepted s mid) = inflight s /\
  App.result (app (world (steps REACT_APP_API_URL accepted s mid)))
  = App.result (app (world s)) /\
  alerts (world (steps REACT_APP_API_URL accepted s mid)) = alerts (world s).
Proof.
  revert s. induction mid as [|ev mid IH]; intros s Hinv Hbusy Hmid.
  - cbn. split; [assumption | repeat split].
  - apply Forall_cons in Hmid as [Hev Hmid].
    destruct (flight_step s ev Hinv Hbusy Hev) as (Hfl & Hr & Ha).
    change (steps REACT_APP_API_URL accepted s (ev :: mid))
      with (steps REACT_APP_API_URL accepted (next s ev) mid).
    destruct (IH (next s ev)) as (Hinv' & Hfl' & Hr' & Ha').
    + now apply invariant_step.
    + now rewrite Hfl.
    + assumption.
    + split; [assumption|]. repeat split; congruence.
Qed.

(** A submission from [FileSelected], whatever happens on the page before its
    exchange settles: the page just before, and the page just after. *)
Lemma submit_mid_settle (evs mid : list Event) (ex : Exchange) :
  phase (world (after evs)) = FileSelected ->
  Forall (fun ev => is_settle ev = false) mid ->
  exists (w' : World) (m' : Mounted),
    world (steps REACT_APP_API_URL accepted (next (after evs) ClickAnalyze) mid) = w' /\
    uploader w' = Some m' /\
    truthy (App.result (app w')) = false /\
    App.result (app w') = App.result (app (world (after evs))) /\
    alerts w' = alerts (world (after evs)) /\
    next (steps REACT_APP_API_URL accepted (next (after evs) ClickAnalyze) mid)
         (Settle 0 ex)
    = {| world := settled (inst m') ex w'; inflight := [] |}.
Proof.
  intros Hphase Hmid.
  pose proof (invariant_after REACT_APP_API_URL accepted evs) as Hinv.
  destruct (file_selected_page _ _ Hinv Hphase) as (m & f & Hm & Hfile & Hl & Ht & Hfl).
  destruct (click_analyze REACT_APP_API_URL accepted _ m f Hm Hfile Hl)
    as (k & Hclick & Hk).
  cbn zeta in Hclick.
  assert (Hinv1 : inv (next (after evs) ClickAnalyze)) by now apply invariant_step.
  assert (Hbusy1 : inflight (next (after evs) ClickAnalyze) <> [])
    by (rewrite Hclick, Hfl; discriminate).
  destruct (flight_steps mid _ Hinv1 Hbusy1 Hmid) as (Hinv' & Hfl' & Hr' & Ha').
  set (s' := steps REACT_APP_API_URL accepted (next (after evs) ClickAnalyze) mid) in *.
  clearbody s'.
  rewrite Hclick in Hfl', Hr', Ha'. cbn [world inflight] in Hfl', Hr', Ha'.
  rewrite (submitted_world _ _ _ Hm) in Hr', Ha'. cbn in Hr', Ha'.
  rewrite Hfl in Hfl'. rewrite app_nil_l in Hfl'.
  destruct s' as [w' fl']. cbn [world inflight] in *.
  destruct Hinv' as [Hc' Hf' _].
  destruct Hf' as [[Hq _] | (p' & m' & Hp' & Hm' & Hl' & Hk')];
    cbn [world inflight] in *; [congruence|].
  exists w', m'. repeat split; try assumption.
  - now rewrite Hr'.
  - rewrite Hp'. now apply (settle_single REACT_APP_API_URL accepted).
Qed.


(** C4, as the code has it: whatever is done on the page while the request is
    in flight, once the call has resolved a submission from [FileSelected]
    has cleared both loading flags and nothing is in flight, whether the
    client call returned or threw.  It ends in one of four ways: with the
    failure alert, on the upload view, exactly when the call threw; on the
    result page exactly when the call returned a truthy body that the result
    branch displays; on a blank page when it returned a truthy body on which
    that branch throws; and on the upload view again, with no result and no
    alert and with whatever file the input then holds, when it returned a
    falsy body. *)
Theorem submit_resolves (evs mid : list Event) (ex : Exchange) :
  let s := after evs in
  let s1 := next s ClickAnalyze in
  let s2 := next (steps REACT_APP_API_URL accepted s1 mid) (Settle 0 ex) in
  phase (world s) = FileSelected ->
  Forall (fun ev => is_settle ev = false) mid ->
  (length (inflight s1) = 1 /\ phase (world s1) = Submitting) /\
  inflight s2 = [] /\
  App.loading (app (world s2)) = false /\
  spinner (world s2) = false /\
  phase_since (world s) (world s2) <> Submitting /\
  match settle ex with
  | inl _ =>
      phase_since (world s) (world s2) = Failed /\
      new_alerts (world s) (world s2)
      = ["Error connecting to backend. See console."] /\
      page accepted (world s2) = UploadPage /\
      App.result (app (world s2)) = App.result (app (world s))
  | inr response =>
      App.result (app (world s2)) = data response /\
      new_alerts (world s) (world s2) = [] /\
      if truthy (data response)
      then page accepted (world s2)
           = (if displays accepted (data response) then ResultPage else BlankPage) /\
           uploader (world s2) = None
      else page accepted (world s2) = UploadPage /\
           phase_since (world s) (world s2)
           = match selected_file (world s2) with
             | Some _ => FileSelected
             | None => Idle
             end
  end.
Proof.
  cbn zeta. intros Hphase Hmid.
  destruct (submit_and_settle REACT_APP_API_URL accepted _ ex
              (invariant_after REACT_APP_API_URL accepted evs) Hphase)
    as (m & f & Hm & Hfile & Ht & Hw1 & Hlen & _).
  split.
  { split; [assumption|]. rewrite Hw1. now apply phase_submitted. }
  destruct (submit_mid_settle evs mid ex Hphase Hmid)
    as (w' & m' & _ & Hm' & Ht' & Hr' & Ha' & ->).
  cbn [world inflight].
  split; [reflexivity|].
  destruct (settle ex) as [error|response] eqn:Hex.
  - rewrite (settled_failure _ _ _ _ Hm' Ht' Hex).
    unfold phase_since, new_alerts, spinner, page. cbn.
    rewrite Ht', Ha', drop_app_length.
    repeat split; try assumption; discriminate.
  - destruct (truthy (data response)) eqn:Htd.
    + rewrite (settled_truthy _ _ _ _ Hex Htd).
      unfold phase_since, new_alerts, spinner, page. cbn.
      rewrite Htd, Ha', drop_all.
      repeat split; discriminate.
    + rewrite (settled_falsy _ _ _ _ Hm' Hex Htd).
      unfold phase_since, new_alerts, spinner, page, selected_file. cbn.
      rewrite Htd, Ha', drop_all.
      repeat split.
      destruct (FileUploader.file (ustate m')); discriminate.
Qed.

(** C5, as the code has it: on every client failure the user is told by an
    alert with an error description, and nothing is stored: with no other
    event in between, [App]'s state and the uploader's are what they were
    before the submission, so the page is in [FileSelected] again.  The file
    chosen before is still the selected one, and Analyze submits that same
    file again. *)
Theorem failure_keeps_file (evs : list Event) (ex : Exchange) (error : AxiosError) :
  let s := after evs in
  let s2 := next (next s ClickAnalyze) (Settle 0 ex) in
  phase (world s) = FileSelected ->
  settle ex = inl error ->
  new_alerts (world s) (world s2) = ["Error connecting to backend. See console."] /\
  app (world s2) = app (world s) /\
  uploader (world s2) = uploader (world s) /\
  phase (world s2) = FileSelected /\
  exists f : File,
    selected_file (world s) = Some f /\
    selected_file (world s2) = Some f /\
    network (world (next s2 ClickAnalyze))
    = (network (world s2) ++ [request f "Retail" (App.lang (app (world s2)))])%list /\
    length (inflight (next s2 ClickAnalyze)) = 1.
Proof.
  cbn zeta. intros Hphase Hex.
  pose proof (ledger_loading _ _ (ledger_after REACT_APP_API_URL accepted evs)) as Hload.
  destruct (submit_and_settle REACT_APP_API_URL accepted _ ex
              (invariant_after REACT_APP_API_URL accepted evs) Hphase)
    as (m & f & Hm & Hfile & Ht & Hw1 & Hlen & Hs2).
  pose proof (file_selected_page _ _ (invariant_after REACT_APP_API_URL accepted evs)
                Hphase) as (m0 & f0 & Hm0 & Hfile0 & Hl0 & _ & Hfl).
  assert (m0 = m) as -> by congruence. assert (f0 = f) as -> by congruence.
  rewrite Hfl in Hload.
  cbn zeta in Hs2. rewrite Hs2. cbn [world inflight].
  set (s := after evs) in *. clearbody s. destruct s as [w fl].
  destruct w as [[r lo la] u n al co ne]. cbn in *. subst u lo fl.
  destruct m as [i [ld fi]]. cbn in *. subst ld fi.
  unfold submitted, settled. rewrite Hex. cbn.
  unfold with_uploader. cbn. repeat (rewrite Nat.eqb_refl; cbn).
  unfold new_alerts, phase, phase_since, selected_file. cbn.
  rewrite Ht, drop_app_length, drop_all.
  repeat split.
  exists f. repeat split.
Qed.

(** C6, as the code has it: from the result page "New Scan" always leaves
    [Idle]: the upload view on a freshly mounted uploader, with no file
    selected and no result.  The button is on the result page and nowhere
    else: after a failure, with the upload view and its file still there, and
    on the blank page left by a result the result branch threw on, there is
    no "New Scan", and a click changes nothing. *)
Theorem new_scan_from_result (evs : list Event) :
  let s := after evs in
  let s' := next s ClickNewScan in
  (page accepted (world s) = ResultPage ->
   phase (world s') = Idle /\
   page accepted (world s') = UploadPage /\
   selected_file (world s') = None /\
   App.result (app (world s')) = JNull /\
   (exists m : Mounted, uploader (world s') = Some m /\
                        ustate m = FileUploader.initial) /\
   inflight s' = []) /\
  (page accepted (world s) <> ResultPage ->
   new_scan_button accepted (world s) = None /\ s' = s).
Proof.
  cbn zeta. pose proof (invariant_after REACT_APP_API_URL accepted evs) as [Hc Hf Hn].
  set (s := after evs) in *. clearbody s. destruct s as [w fl].
  cbn [world inflight] in *. unfold step, click. cbn [world inflight].
  destruct (new_scan_button_cases accepted w) as [(-> & Hp & Ht & _) | (-> & Hp)].
  - split; [|intros Hne; contradiction].
    intros _.
    pose proof (coherent_result _ Hc Ht) as Hnone.
    unfold dispatch. cbn. unfold render. cbn. rewrite Hnone.
    unfold phase, phase_since, selected_file, new_alerts, page. cbn.
    rewrite drop_all.
    repeat split.
    + eexists. split; reflexivity.
    + destruct Hf as [[Hfl _] | (p & m' & _ & Hm' & _)];
        [assumption | cbn in Hm'; congruence].
  - split; [intros Hres; contradiction|].
    intros _. split; reflexivity.
Qed.

End OutcomeFacts.

(** ** How the controls compose *)

Section CompositionFacts.

Variable REACT_APP_API_URL : option string.
Variable accepted : JsValue -> bool.

Local Abbreviation request := (analysis_request REACT_APP_API_URL).
Local Abbreviation next := (step REACT_APP_API_URL accepted).
Local Abbreviation after := (steps REACT_APP_API_URL accepted initial_system).
Local Abbreviation inv := (invariant REACT_APP_API_URL).

(** The upload view with no spinner, on a reachable page. *)
Lemma upload_view_page (s : System) :
  inv s ->
  phase (world s) = Idle \/ phase (world s) = FileSelected ->
  exists m : Mounted,
    uploader (world s) = Some m /\
    FileUploader.loading (ustate m) = false /\
    truthy (App.result (app (world s))) = false /\
    inflight s = [].
Proof.
  intros [Hc Hf Hn] Hphase.
  assert (Ht : truthy (App.result (app (world s))) = false).
  { unfold phase, phase_since in Hphase.
    destruct (truthy _); [destruct Hphase; discriminate | reflexivity]. }
  unfold coherent in Hc. rewrite Ht in Hc. destruct Hc as [m Hm].
  assert (Hl : FileUploader.loading (ustate m) = false).
  { unfold phase, phase_since in Hphase. rewrite Ht, Hm in Hphase.
    destruct (FileUploader.loading (ustate m));
      [destruct Hphase; discriminate | reflexivity]. }
  exists m. repeat split; try assumption.
  destruct Hf as [[Hfl _] | (p & m' & _ & Hm' & Hl' & _)]; [assumption | congruence].
Qed.

Ltac open_system s :=
  let w := fresh "w" in
  let a := fresh "a" in
  destruct s as [w ?]; destruct w as [a ? ? ? ? ?]; destruct a as [? ? ?];
  cbn in *.

(** X7: the request that goes out carries the file chosen last and the language
    selected last; with the chooser dismissed there is nothing to submit. *)
Theorem latest_choice_is_sent (evs : list Event) (f : File) (hi : bool) :
  let s := after evs in
  phase (world s) = Idle \/ phase (world s) = FileSelected ->
  network (world (steps REACT_APP_API_URL accepted s [ChooseFile (Some f); ClickAnalyze]))
  = (network (world s) ++ [request f "Retail" (App.lang (app (world s)))])%list /\
  network (world (steps REACT_APP_API_URL accepted s
                    [ChooseFile (Some f); ClickLang hi; ClickAnalyze]))
  = (network (world s) ++ [request f "Retail" (if hi then "hi" else "en")])%list /\
  phase (world (next s (ChooseFile None))) = Idle /\
  next (next s (ChooseFile None)) ClickAnalyze = next s (ChooseFile None).
Proof.
  cbn zeta. intros Hphase.
  destruct (upload_view_page _ (invariant_after REACT_APP_API_URL accepted evs) Hphase)
    as (m & Hm & Hl & Ht & Hfl).
  set (s := after evs) in *. clearbody s.
  open_system s. subst. destruct m as [i [ld fi]]. cbn in *. subst ld.
  unfold with_uploader, phase, phase_since, new_alerts. cbn.
  repeat (rewrite Nat.eqb_refl; cbn). rewrite Ht, drop_all.
  repeat split.
Qed.

(** X8: a file chosen while a request is in flight does not change that request;
    it is the file the uploader holds once the request has failed (or come
    back with a falsy body), and it is gone with the uploader once a result
    is shown. *)
Theorem file_changed_in_flight (evs : list Event) (files0 : option File) (ex : Exchange) :
  let s := after evs in
  let s3 := steps REACT_APP_API_URL accepted s [ClickAnalyze; ChooseFile files0; Settle 0 ex] in
  phase (world s) = FileSelected ->
  (exists f : File,
     selected_file (world s) = Some f /\
     network (world s3)
     = (network (world s) ++ [request f "Retail" (App.lang (app (world s)))])%list) /\
  inflight s3 = [] /\
  spinner (world s3) = false /\
  selected_file (world s3)
  = match settle ex with
    | inl _ => files0
    | inr response => if truthy (data response) then None else files0
    end.
Proof.
  cbn zeta. intros Hphase.
  destruct (file_selected_page _ _ (invariant_after REACT_APP_API_URL accepted evs) Hphase)
    as (m & f & Hm & Hfile & Hl & Ht & Hfl).
  set (s := after evs) in *. clearbody s.
  open_system s. subst. destruct m as [i [ld fi]]. cbn in *. subst ld fi.
  unfold with_uploader, selected_file, spinner. cbn.
  repeat (rewrite Nat.eqb_refl; cbn).
  destruct (settle ex) as [error|response]; cbn.
  - unfold with_uploader. cbn. repeat (rewrite Nat.eqb_refl; cbn).
    split; [exists f; split; reflexivity|]. repeat split.
  - unfold render. cbn. destruct (truthy (data response)); cbn.
    + split; [exists f; split; reflexivity|]. repeat split.
    + unfold with_uploader. cbn. repeat (rewrite Nat.eqb_refl; cbn).
      split; [exists f; split; reflexivity|]. repeat split.
Qed.

(** Selecting a language does not interfere with the handlers' last steps. *)
Lemma settled_lang (i : nat) (ex : Exchange) (l : string) (w : World) :
  settled i ex (apply_op (SetLang l) w) = apply_op (SetLang l) (settled i ex w).
Proof.
  unfold settled. destruct w as [[r lo la] u n al co ne].
  destruct (settle ex) as [error|response]; cbn.
  - unfold with_uploader. cbn. destruct u as [m|]; [|reflexivity].
    destruct (Nat.eqb (inst m) i); reflexivity.
  - unfold render. cbn. destruct (truthy (data response)); cbn.
    + reflexivity.
    + unfold with_uploader. destruct u as [m|]; cbn.
      * destruct (Nat.eqb (inst m) i); reflexivity.
      * destruct (Nat.eqb n i); reflexivity.
Qed.

(** X9: the language buttons are independent of the workflow: choosing a file,
    New Scan and the settling of an exchange commute with them.  (Analyze
    does not: it sends the language selected when it is clicked.) *)
Theorem language_commutes (evs : list Event) (hi : bool) (ev : Event) :
  let s := after evs in
  match ev with ClickAnalyze | ClickLang _ => False | _ => True end ->
  next (next s (ClickLang hi)) ev = next (next s ev) (ClickLang hi).
Proof.
  cbn zeta. intros Hev.
  destruct (invariant_after REACT_APP_API_URL accepted evs) as [Hc Hf _].
  set (s := after evs) in *. clearbody s. destruct s as [w fl].
  destruct ev as [files0| |hi'| |n ex]; try contradiction.
  - cbn. unfold file_input. cbn.
    destruct w as [[r lo la] [m|] n al co ne]; cbn; [|reflexivity].
    unfold dispatch, with_uploader. cbn. rewrite Nat.eqb_refl. reflexivity.
  - cbn. unfold new_scan_button, page. cbn.
    destruct (truthy (App.result (app w))); cbn; [|reflexivity].
    destruct (displays accepted (App.result (app w))); cbn; [|reflexivity].
    destruct w as [[r lo la] [m|] n al co ne]; reflexivity.
  - cbn in *.
    destruct Hf as [[Hfl Hq] | (p & m & Hfl & Hm & Hl & Hk)]; cbn in *; subst fl.
    { now rewrite lookup_nil. }
    destruct n as [|n]; cbn; [|reflexivity].
    unfold dispatch. rewrite !Hk. cbn.
    f_equal. apply (settled_lang (inst m) ex (if hi then "hi" else "en") w).
Qed.

End CompositionFacts.

(** ** The result view *)

Section SummaryFacts.

Variable StringToNumber : string -> spec_float.
Variable ObjectToNumber : JsValue -> spec_float.

Local Abbreviation gauge := (CreditScoreGauge StringToNumber ObjectToNumber).
Local Abbreviation grid_of := (MetricsGrid_of StringToNumber ObjectToNumber).
Local Abbreviation view := (result_view StringToNumber ObjectToNumber).

Lemma js_path_one (v : JsValue) (k : string) :
  js_path v [k] = if nullish v then None else Some (js_prop v k).
Proof. destruct v; reflexivity. Qed.

Lemma js_path_two (v : JsValue) (k1 k2 : string) :
  js_path v [k1; k2]
  = if nullish v then None
    else if nullish (js_prop v k1) then None
         else Some (js_prop (js_prop v k1) k2).
Proof.
  destruct v; try reflexivity; cbn; destruct (js_get _ _); reflexivity.
Qed.

Lemma grid_of_none (metrics : JsValue) :
  grid_of metrics = None <-> nullish metrics = true.
Proof. destruct metrics; cbn; split; intros H; congruence. Qed.

Lemma result_view_none (result : JsValue) :
  view result = None <->
  nullish result = true \/
  nullish (js_prop result "credit_readiness") = true \/
  nullish (js_prop result "financial_summary") = true \/
  nullish (js_prop (js_prop result "financial_summary") "metrics") = true.
Proof.
  unfold result_view. rewrite !js_path_two, !js_path_one.
  destruct (nullish result) eqn:Hr; cbn.
  { split; [auto | reflexivity]. }
  destruct (nullish (js_prop result "credit_readiness")) eqn:Hc; cbn.
  { split; [auto | reflexivity]. }
  destruct (nullish (js_prop result "financial_summary")) eqn:Hf; cbn.
  { split; [auto | reflexivity]. }
  destruct (grid_of (js_prop (js_prop result "financial_summary") "metrics"))
    as [cards|] eqn:Hg; cbn.
  - split; [discriminate|].
    intros [H | [H | [H | H]]]; try discriminate.
    apply grid_of_none in H. congruence.
  - split; [|reflexivity]. intros _.
    right. right. right. now apply grid_of_none.
Qed.

(** [readable] is the condition under which the result branch reads
    without throwing. *)
Lemma readable_view (result : JsValue) :
  readable result = false <-> view result = None.
Proof.
  rewrite result_view_none. unfold readable.
  destruct (nullish result); cbn; [tauto|].
  destruct (nullish (js_prop result "credit_readiness")); cbn; [tauto|].
  destruct (nullish (js_prop result "financial_summary")); cbn; [tauto|].
  destruct (nullish (js_prop (js_prop result "financial_summary") "metrics")); cbn;
    [tauto|].
  split; [discriminate|]. intros [H | [H | [H | H]]]; discriminate.
Qed.

(** X10: reading the result for the result view throws exactly when the
    result has no [credit_readiness], no [financial_summary] or no metrics in
    it; a missing score, grade, forecast or report is handed on as
    [undefined], to the components named in the source. *)
Theorem result_view_renders (result : JsValue) :
  (view result = None <->
   nullish result = true \/
   nullish (js_prop result "credit_readiness") = true \/
   nullish (js_prop result "financial_summary") = true \/
   nullish (js_prop (js_prop result "financial_summary") "metrics") = true) /\
  (forall v : ResultView,
     view result = Some v ->
     view_gauge v = gauge (js_prop (js_prop result "credit_readiness") "score")
                          (js_prop (js_prop result "credit_readiness") "grade") /\
     grid_of (js_prop (js_prop result "financial_summary") "metrics")
     = Some (view_metrics v) /\
     view_chart v = ForecastChart (js_prop result "projections") /\
     view_report v = js_prop result "ai_report").
Proof.
  split; [apply result_view_none|].
  unfold result_view. rewrite !js_path_two, !js_path_one.
  destruct (nullish result); cbn; [discriminate|].
  destruct (nullish (js_prop result "credit_readiness")); cbn; [discriminate|].
  destruct (nullish (js_prop result "financial_summary")); cbn; [discriminate|].
  destruct (grid_of (js_prop (js_prop result "financial_summary") "metrics"))
    as [cards|]; cbn; [|discriminate].
  intros v [= <-]. cbn. repeat split.
Qed.

Lemma gauge_arithmetic (n : nat) :
  (n <= 100)%nat ->
  SFsub Num.prec Num.emax (Num.of_Z 100) (Num.of_Z (Z.of_nat n))
  = Num.of_Z (100 - Z.of_nat n) /\
  SFadd Num.prec Num.emax (Num.of_Z (Z.of_nat n)) (Num.of_Z (100 - Z.of_nat n))
  = Num.of_Z 100.
Proof.
  intros Hn.
  do 101 (destruct n as [|n]; [vm_compute; split; reflexivity|]).
  lia.
Qed.

(** X12: for every whole score from 0 to 100 the gauge draws the score and what
    is missing to 100, and the two add up to 100 exactly; with no score the
    second slice is NaN. *)
Theorem gauge_slices_of_score (grade : JsValue) :
  (forall z : Z,
     (0 <= z <= 100)%Z ->
     gauge_slices (gauge (JInt z) grade) = [ JInt z; JInt (100 - z) ] /\
     SFadd Num.prec Num.emax (Num.of_Z z) (Num.of_Z (100 - z)) = Num.of_Z 100) /\
  gauge_slices (gauge JUndefined grade) = [ JUndefined; JNum Num.nan ].
Proof.
  split; [|reflexivity].
  intros z Hz.
  destruct (gauge_arithmetic (Z.to_nat z)) as [Hsub Hadd]; [lia|].
  rewrite Z2Nat.id in Hsub, Hadd by lia.
  split; [|exact Hadd].
  unfold CreditScoreGauge, js_minus, JInt. cbn [gauge_slices ToNumber].
  now rewrite Hsub.
Qed.

Lemma js_is_true (v : JsValue) (s : string) : js_is v s = true <-> v = JStr s.
Proof.
  destruct v; cbn; try (split; intros H; discriminate).
  rewrite String.eqb_eq. split; [intros -> | intros [= ->]]; reflexivity.
Qed.

(** X13: the first slice is filled with the colour of the grade and the second
    with slate.  A, B and C have a colour each; any other grade, a missing
    one included, is drawn in the red of D. *)
Theorem gauge_fills_of_grade (score grade : JsValue) :
  exists c : string,
    gauge_fills (gauge score grade) = [ JStr c; JStr "#334155" ] /\
    (grade = JStr "A" -> c = "#10b981") /\
    (grade = JStr "B" -> c = "#3b82f6") /\
    (grade = JStr "C" -> c = "#f59e0b") /\
    (grade <> JStr "A" -> grade <> JStr "B" -> grade <> JStr "C" -> c = "#ef4444") /\
    (c = "#ef4444" -> grade <> JStr "A" /\ grade <> JStr "B" /\ grade <> JStr "C").
Proof.
  unfold CreditScoreGauge. cbn [gauge_fills].
  destruct (js_is grade "A") eqn:HA.
  { apply js_is_true in HA. subst grade. eexists. split; [reflexivity|].
    repeat split; try discriminate; try congruence. }
  destruct (js_is grade "B") eqn:HB.
  { apply js_is_true in HB. subst grade. eexists. split; [reflexivity|].
    repeat split; try discriminate; try congruence. }
  destruct (js_is grade "C") eqn:HC.
  { apply js_is_true in HC. subst grade. eexists. split; [reflexivity|].
    repeat split; try discriminate; try congruence. }
  eexists. split; [reflexivity|].
  assert (HnA : grade <> JStr "A") by (intros E; apply js_is_true in E; congruence).
  assert (HnB : grade <> JStr "B") by (intros E; apply js_is_true in E; congruence).
  assert (HnC : grade <> JStr "C") by (intros E; apply js_is_true in E; congruence).
  repeat split; try assumption; try contradiction; reflexivity.
Qed.


(** X14: a metric that is present but falsy (0, -0, NaN, null, false, the
    empty string) is shown as zero like an absent one; any other value is
    shown as the number it converts to, a number as itself. *)
Theorem present_metric_displays (metrics : gmap string JsValue) (k : MetricKey)
                                (v : JsValue) :
  metrics !! key_name k = Some v ->
  amount_of StringToNumber ObjectToNumber metrics k
  = Some (if truthy v then ToNumber StringToNumber ObjectToNumber v else Num.zero) /\
  (forall x : spec_float,
     v = JNum x ->
     amount_of StringToNumber ObjectToNumber metrics k
     = Some (if Num.is_zero x || Num.is_nan x then Num.zero else x)).
Proof.
  intros Hv.
  assert (Ha : amount_of StringToNumber ObjectToNumber metrics k
               = Some (if truthy v then ToNumber StringToNumber ObjectToNumber v
                       else Num.zero)).
  { rewrite amount_of_eq, (js_get_present _ _ _ Hv). unfold js_or.
    destruct (truthy v); reflexivity. }
  split; [exact Ha|].
  intros x ->. rewrite Ha. cbn.
  destruct (Num.is_zero x || Num.is_nan x); reflexivity.
Qed.

Section PageFacts.

Variable REACT_APP_API_URL : option string.
Variable accepted : JsValue -> bool.

Local Abbreviation request := (analysis_request REACT_APP_API_URL).
Local Abbreviation after := (steps REACT_APP_API_URL accepted initial_system).

(** X11: a reply with a success status and a truthy body always takes the
    page to the result view, validated or not; when that body has no
    [credit_readiness] or no [financial_summary] (any body that is not an
    object, for one) the view that is then rendered throws. *)
Theorem truthy_body_needs_readiness (evs : list Event) (code : Z) (body : JsValue) :
  let s := after evs in
  let s2 := steps REACT_APP_API_URL accepted s [ClickAnalyze; Settle 0 (Reply code body)] in
  phase (world s) = FileSelected ->
  validateStatus code = true ->
  truthy body = true ->
  phase (world s2) = Succeeded /\
  App.result (app (world s2)) = body /\
  (nullish (js_prop body "credit_readiness") = true \/
   nullish (js_prop body "financial_summary") = true ->
   view (App.result (app (world s2))) = None) /\
  ((forall o : gmap string JsValue, body <> JObj o) ->
   view (App.result (app (world s2))) = None).
Proof.
  cbn zeta. intros Hphase Hcode Hbody.
  destruct (submit_and_settle REACT_APP_API_URL accepted _ (Reply code body)
              (invariant_after REACT_APP_API_URL accepted evs) Hphase)
    as (m & f & Hm & Hfile & Ht & Hw1 & Hlen & Hs2).
  cbn zeta in Hs2.
  change (steps REACT_APP_API_URL accepted (after evs) [ClickAnalyze; Settle 0 (Reply code body)])
    with (step REACT_APP_API_URL accepted (step REACT_APP_API_URL accepted (after evs) ClickAnalyze)
            (Settle 0 (Reply code body))).
  rewrite Hs2. cbn [world].
  assert (Hex : settle (Reply code body) = inr {| status := code; data := body |})
    by (cbn; now rewrite Hcode).
  rewrite (settled_truthy _ _ _ _ Hex Hbody). cbn [app App.result data].
  split; [unfold phase, phase_since; cbn; now rewrite Hbody|].
  split; [reflexivity|].
  split.
  - intros [H | H]; apply result_view_none; auto.
  - intros Hobj. apply result_view_none. right. left.
    destruct body; try reflexivity. exfalso. now apply (Hobj props).
Qed.

End PageFacts.

End SummaryFacts.

(** * The properties on the scenarios of the specification *)

Lemma absent_metric_displays_zero_witness :
  partial_metrics !! key_name NetCashflow = None /\
  exists c : CardView,
    card_of nan_of_string nan_of_object partial_metrics NetCashflow = Some c /\
    card_title c = "Net Cashflow" /\
    card_amount c = Num.zero.
Proof.
  assert (H : partial_metrics !! key_name NetCashflow = None)
    by (vm_compute; reflexivity).
  split; [exact H|].
  exact (absent_metric_displays_zero nan_of_string nan_of_object
           partial_metrics NetCashflow H).
Defined.

Lemma health_flags_witness :
  partial_metrics !! "net_cashflow" = None /\
  badge_of nan_of_string nan_of_object partial_metrics NetCashflow = Some "STRESS".
Proof.
  assert (H : partial_metrics !! "net_cashflow" = None)
    by (vm_compute; reflexivity).
  split; [exact H|].
  destruct (health_flags nan_of_string nan_of_object partial_metrics)
    as (_ & _ & _ & _ & _ & _ & _ & Habsent).
  exact (Habsent H).
Defined.

Lemma uploadAndAnalyze_returns_body_witness :
  validateStatus 200 = true /\
  exec (fun _ => Reply 200 body_A) (uploadAndAnalyze no_env statement_csv None None)
       initial_world
  = (inr body_A, send (analysis_request no_env statement_csv "Retail" "en") initial_world).
Proof.
  assert (H : validateStatus 200 = true) by reflexivity.
  split; [exact H|].
  exact (proj1 (uploadAndAnalyze_returns_body no_env statement_csv None None
                  200 body_A initial_world H)).
Defined.

(** Scenario C on the code: the body without a score is not refused; the
    client returns it and [handleAnalysis] stores it as the result, so that
    [App] takes its result branch (which then throws on it: [scenario_C]). *)
Lemma missing_score_is_returned :
  js_path body_C ["credit_readiness"; "score"] = Some JUndefined /\
  ResultSchema.parse body_C = inl (ResultSchema.Invalid "credit_readiness.score") /\
  fst (exec (fun _ => Reply 200 body_C)
         (uploadAndAnalyze no_env statement_csv None None) initial_world)
  = inr body_C /\
  App.result (app (world (submitted_and_settled (Reply 200 body_C)))) = body_C /\
  phase (world (submitted_and_settled (Reply 200 body_C))) = Succeeded.
Proof. repeat split; vm_compute; reflexivity. Qed.

(** A reply with status 200 whose body is no analysis result at all: the
    call resolves with it, neither validated nor failed. *)
Lemma unvalidated_body_resolves :
  ~ validated_or_failed
      (fst (exec (fun _ => Reply 200 body_html)
              (uploadAndAnalyze no_env statement_csv None None) initial_world)).
Proof. cbn. intros [r Hr]. discriminate Hr. Qed.

(** A reply with status 200 and body [null]: the call has resolved, nothing
    is in flight, and the page is neither in [Succeeded] nor in [Failed]. *)
Lemma null_body_neither_succeeds_nor_fails :
  phase (world chosen) = FileSelected /\
  inflight (submitted_and_settled (Reply 200 JNull)) = [] /\
  phase_since (world chosen) (world (submitted_and_settled (Reply 200 JNull)))
  <> Succeeded /\
  phase_since (world chosen) (world (submitted_and_settled (Reply 200 JNull)))
  <> Failed /\
  phase_since (world chosen) (world (submitted_and_settled (Reply 200 JNull)))
  = FileSelected.
Proof. repeat split; try (vm_compute; reflexivity); vm_compute; discriminate. Qed.

(** Scenario B, then "New Scan": after the failure the button is not there,
    and neither a click nor its handler takes the selected file away. *)
Lemma new_scan_after_failure_keeps_file :
  phase_since (world chosen) (world (submitted_and_settled (Reply 500 JNull)))
  = Failed /\
  new_scan_button accepts_all (world (submitted_and_settled (Reply 500 JNull))) = None /\
  selected_file
    (world (step no_env accepts_all (submitted_and_settled (Reply 500 JNull)) ClickNewScan))
  = Some statement_csv /\
  phase (world (step no_env accepts_all (submitted_and_settled (Reply 500 JNull)) ClickNewScan))
  <> Idle /\
  selected_file
    (apply_op (SetResult JNull) (world (submitted_and_settled (Reply 500 JNull))))
  = Some statement_csv.
Proof. repeat split; try (vm_compute; reflexivity); vm_compute; discriminate. Qed.

Lemma single_flight_witness :
  phase (world (steps no_env accepts_all chosen [ClickAnalyze])) = Submitting /\
  step no_env accepts_all (steps no_env accepts_all chosen [ClickAnalyze]) ClickAnalyze
  = steps no_env accepts_all chosen [ClickAnalyze].
Proof.
  assert (H : phase (world (steps no_env accepts_all chosen [ClickAnalyze])) = Submitting)
    by (vm_compute; reflexivity).
  split; [exact H|].
  destruct (single_flight no_env accepts_all [ChooseFile (Some statement_csv); ClickAnalyze])
    as (_ & _ & Hnoop).
  exact (proj1 (Hnoop H)).
Defined.

Lemma no_file_no_request_witness :
  selected_file (world initial_system) = None /\
  step no_env accepts_all initial_system ClickAnalyze = initial_system.
Proof.
  assert (H : selected_file (world initial_system) = None) by reflexivity.
  split; [exact H|].
  destruct (no_file_no_request no_env accepts_all) as (_ & Hclick & _).
  exact (Hclick initial_system H).
Defined.

(** Scenario A: one request for [statement.csv] with the defaults, and the
    complete body, which does pass the schema, becomes the result shown. *)
Example scenario_A :
  network (world (steps no_env accepts_all chosen [ClickAnalyze]))
  = [ analysis_request no_env statement_csv "Retail" "en" ] /\
  App.result (app (world (submitted_and_settled (Reply 200 body_A)))) = body_A /\
  phase (world (submitted_and_settled (Reply 200 body_A))) = Succeeded /\
  selected_file (world (submitted_and_settled (Reply 200 body_A))) = None /\
  validated_or_failed (inr body_A).
Proof.
  repeat split; try (vm_compute; reflexivity).
  cbn. eexists. vm_compute. reflexivity.
Qed.

(** Scenario D: the language chosen before the submission is the one sent. *)
Example scenario_D :
  network (world (steps no_env accepts_all initial_system
                    [ClickLang true; ChooseFile (Some statement_csv); ClickAnalyze]))
  = [ analysis_request no_env statement_csv "Retail" "hi" ].
Proof. vm_compute. reflexivity. Qed.

Lemma handleUpload_any_callback_witness :
  let final :=
    snd (exec (fun _ => Reply 500 JNull)
           (handleUpload 0 (handleAnalysis no_env "en") (Some statement_csv))
           (world chosen)) in
  uploader final
  = Some {| inst := 0;
            ustate := {| FileUploader.loading := false;
                         FileUploader.file := Some statement_csv |} |} /\
  FileUploader.loading
    (ustate {| inst := 0;
               ustate := {| FileUploader.loading := false;
                            FileUploader.file := Some statement_csv |} |}) = false.
Proof.
  cbn zeta.
  assert (H : uploader
                (snd (exec (fun _ => Reply 500 JNull)
                        (handleUpload 0 (handleAnalysis no_env "en") (Some statement_csv))
                        (world chosen)))
              = Some {| inst := 0;
                        ustate := {| FileUploader.loading := false;
                                     FileUploader.file := Some statement_csv |} |})
    by (vm_compute; reflexivity).
  split; [exact H|].
  destruct (handleUpload_any_callback 0 (handleAnalysis no_env "en") statement_csv
              (fun _ => Reply 500 JNull) (world chosen)) as (_ & Hoff & _).
  exact (Hoff _ H eq_refl).
Defined.

Lemma alerts_are_backend_errors_witness :
  alerts (world (submitted_and_settled (Reply 500 JNull)))
  = ["Error connecting to backend. See console."] /\
  ~ In "Upload failed. Check console."
       (alerts (world (submitted_and_settled (Reply 500 JNull)))).
Proof.
  split; [vm_compute; reflexivity|].
  destruct (alerts_are_backend_errors no_env accepts_all
              [ChooseFile (Some statement_csv); ClickAnalyze;
               Settle 0 (Reply 500 JNull)]) as (_ & Hnever & _).
  exact Hnever.
Defined.

Lemma requests_only_from_clicks_witness :
  is_analyze (Settle 0 (Reply 500 JNull)) = false /\
  network (world (step no_env accepts_all (steps no_env accepts_all chosen [ClickAnalyze])
                    (Settle 0 (Reply 500 JNull))))
  = network (world (steps no_env accepts_all chosen [ClickAnalyze])).
Proof.
  assert (H : is_analyze (Settle 0 (Reply 500 JNull)) = false) by reflexivity.
  split; [exact H|].
  destruct (requests_only_from_clicks no_env accepts_all
              [ChooseFile (Some statement_csv); ClickAnalyze]) as (_ & _ & Hsame).
  exact (Hsame _ H).
Defined.

Lemma loading_flags_agree_witness :
  spinner (world (steps no_env accepts_all chosen [ClickAnalyze])) = true /\
  inflight (steps no_env accepts_all chosen [ClickAnalyze]) <> [].
Proof.
  assert (H : spinner (world (steps no_env accepts_all chosen [ClickAnalyze])) = true)
    by (vm_compute; reflexivity).
  split; [exact H|].
  destruct (loading_flags_agree no_env accepts_all
              [ChooseFile (Some statement_csv); ClickAnalyze]) as (_ & Hiff).
  exact (proj1 Hiff H).
Defined.

Lemma latest_choice_is_sent_witness :
  (phase (world initial_system) = Idle \/ phase (world initial_system) = FileSelected) /\
  network (world (steps no_env accepts_all initial_system
                    [ChooseFile (Some statement_csv); ClickLang true; ClickAnalyze]))
  = [ analysis_request no_env statement_csv "Retail" "hi" ].
Proof.
  assert (H : phase (world initial_system) = Idle \/
              phase (world initial_system) = FileSelected)
    by (left; vm_compute; reflexivity).
  split; [exact H|].
  destruct (latest_choice_is_sent no_env accepts_all [] statement_csv true H) as (_ & Hsent & _).
  exact Hsent.
Defined.

Lemma file_changed_in_flight_witness :
  phase (world chosen) = FileSelected /\
  selected_file
    (world (steps no_env accepts_all chosen
              [ClickAnalyze; ChooseFile None; Settle 0 (Reply 500 JNull)]))
  = None.
Proof.
  assert (H : phase (world chosen) = FileSelected) by (vm_compute; reflexivity).
  split; [exact H|].
  destruct (file_changed_in_flight no_env accepts_all [ChooseFile (Some statement_csv)]
              None (Reply 500 JNull) H) as (_ & _ & _ & Hfile).
  exact Hfile.
Defined.

Lemma language_commutes_witness :
  step no_env accepts_all (step no_env accepts_all chosen (ClickLang true)) (ChooseFile None)
  = step no_env accepts_all (step no_env accepts_all chosen (ChooseFile None)) (ClickLang true).
Proof.
  exact (language_commutes no_env accepts_all [ChooseFile (Some statement_csv)] true
           (ChooseFile None) I).
Defined.

Lemma result_view_renders_witness :
  nullish (js_prop body_C "financial_summary") = true /\
  result_view nan_of_string nan_of_object body_C = None.
Proof.
  assert (H : nullish (js_prop body_C "financial_summary") = true)
    by (vm_compute; reflexivity).
  split; [exact H|].
  destruct (result_view_renders nan_of_string nan_of_object body_C) as (Hnone & _).
  apply Hnone. right. right. left. exact H.
Defined.

Lemma truthy_body_needs_readiness_witness :
  phase (world chosen) = FileSelected /\
  validateStatus 200 = true /\
  truthy body_html = true /\
  phase (world (steps no_env accepts_all chosen [ClickAnalyze; Settle 0 (Reply 200 body_html)]))
  = Succeeded /\
  result_view nan_of_string nan_of_object
    (App.result
       (app (world (steps no_env accepts_all chosen
                      [ClickAnalyze; Settle 0 (Reply 200 body_html)]))))
  = None.
Proof.
  assert (H1 : phase (world chosen) = FileSelected) by (vm_compute; reflexivity).
  assert (H2 : validateStatus 200 = true) by reflexivity.
  assert (H3 : truthy body_html = true) by reflexivity.
  split; [exact H1|]. split; [exact H2|]. split; [exact H3|].
  destruct (truthy_body_needs_readiness nan_of_string nan_of_object no_env accepts_all
              [ChooseFile (Some statement_csv)] 200 body_html H1 H2 H3)
    as (Hphase & _ & _ & Hthrows).
  split; [exact Hphase|].
  apply Hthrows. intros o Ho. discriminate Ho.
Defined.

Lemma gauge_slices_of_score_witness :
  (0 <= 72 <= 100)%Z /\
  gauge_slices (CreditScoreGauge nan_of_string nan_of_object (JInt 72) (JStr "B"))
  = [ JInt 72; JInt 28 ].
Proof.
  assert (H : (0 <= 72 <= 100)%Z) by lia.
  split; [exact H|].
  destruct (gauge_slices_of_score nan_of_string nan_of_object (JStr "B"))
    as (Hslices & _).
  exact (proj1 (Hslices 72%Z H)).
Defined.

Lemma gauge_fills_of_grade_witness :
  exists c : string,
    gauge_fills (CreditScoreGauge nan_of_string nan_of_object (JInt 72) (JStr "B"))
    = [ JStr c; JStr "#334155" ] /\
    c = "#3b82f6".
Proof.
  destruct (gauge_fills_of_grade nan_of_string nan_of_object (JInt 72) (JStr "B"))
    as (c & Hfills & _ & HB & _).
  exists c. split; [exact Hfills | exact (HB eq_refl)].
Defined.

Lemma present_metric_displays_witness :
  partial_metrics !! key_name TotalRevenue = Some (JInt 500000) /\
  amount_of nan_of_string nan_of_object partial_metrics TotalRevenue
  = Some (Num.of_Z 500000).
Proof.
  assert (H : partial_metrics !! key_name TotalRevenue = Some (JInt 500000))
    by (vm_compute; reflexivity).
  split; [exact H|].
  exact (proj1 (present_metric_displays nan_of_string nan_of_object
                  partial_metrics TotalRevenue (JInt 500000) H)).
Defined.

(** A submission during which the chooser is dismissed: with body A it ends
    on the result page, with a failure on the upload view and an alert. *)
Lemma submit_resolves_witness :
  phase (world chosen) = FileSelected /\
  Forall (fun ev => is_settle ev = false) [ChooseFile None] /\
  page accepts_all
    (world (steps no_env accepts_all chosen
              [ClickAnalyze; ChooseFile None; Settle 0 (Reply 200 body_A)]))
  = ResultPage /\
  phase_since (world chosen)
    (world (steps no_env accepts_all chosen
              [ClickAnalyze; ChooseFile None; Settle 0 (Reply 500 JNull)]))
  = Failed.
Proof.
  assert (H : phase (world chosen) = FileSelected) by (vm_compute; reflexivity).
  assert (Hmid : Forall (fun ev => is_settle ev = false) [ChooseFile None])
    by (repeat constructor).
  split; [exact H|]. split; [exact Hmid|]. split.
  - destruct (submit_resolves no_env accepts_all [ChooseFile (Some statement_csv)]
                [ChooseFile None] (Reply 200 body_A) H Hmid)
      as (_ & _ & _ & _ & _ & _ & _ & Hp & _).
    exact Hp.
  - destruct (submit_resolves no_env accepts_all [ChooseFile (Some statement_csv)]
                [ChooseFile None] (Reply 500 JNull) H Hmid)
      as (_ & _ & _ & _ & _ & Hp & _).
    exact Hp.
Defined.

Lemma failure_keeps_file_witness :
  phase (world chosen) = FileSelected /\
  settle (Reply 500 JNull) = inl (BadStatus {| status := 500; data := JNull |}) /\
  new_alerts (world chosen) (world (submitted_and_settled (Reply 500 JNull)))
  = ["Error connecting to backend. See console."] /\
  app (world (submitted_and_settled (Reply 500 JNull))) = app (world chosen) /\
  uploader (world (submitted_and_settled (Reply 500 JNull))) = uploader (world chosen).
Proof.
  assert (H : phase (world chosen) = FileSelected) by (vm_compute; reflexivity).
  assert (Hex : settle (Reply 500 JNull)
                = inl (BadStatus {| status := 500; data := JNull |}))
    by reflexivity.
  split; [exact H|]. split; [exact Hex|].
  destruct (failure_keeps_file no_env accepts_all [ChooseFile (Some statement_csv)]
              (Reply 500 JNull) _ H Hex) as (Ha & Happ & Hup & _).
  split; [exact Ha|]. split; [exact Happ | exact Hup].
Defined.

(** Scenario B on the code: after the failure no state of the page holds an
    error; [App] and the uploader are exactly as they were before the
    submission, which is [FileSelected] and not a state of its own. *)
Lemma failure_stores_nothing :
  settle (Reply 500 JNull) = inl (BadStatus {| status := 500; data := JNull |}) /\
  app (world (submitted_and_settled (Reply 500 JNull))) = app (world chosen) /\
  uploader (world (submitted_and_settled (Reply 500 JNull))) = uploader (world chosen) /\
  phase (world (submitted_and_settled (Reply 500 JNull))) = phase (world chosen) /\
  phase (world (submitted_and_settled (Reply 500 JNull))) = FileSelected /\
  phase (world (submitted_and_settled (Reply 500 JNull))) <> Failed.
Proof. repeat split; try (vm_compute; reflexivity); vm_compute; discriminate. Qed.

Lemma new_scan_from_result_witness :
  page accepts_all (world (submitted_and_settled (Reply 200 body_A))) = ResultPage /\
  phase (world (step no_env accepts_all
                  (submitted_and_settled (Reply 200 body_A)) ClickNewScan))
  = Idle /\
  selected_file
    (world (step no_env accepts_all
              (submitted_and_settled (Reply 200 body_A)) ClickNewScan))
  = None.
Proof.
  assert (H : page accepts_all (world (submitted_and_settled (Reply 200 body_A)))
              = ResultPage)
    by (vm_compute; reflexivity).
  split; [exact H|].
  destruct (new_scan_from_result no_env accepts_all
              [ChooseFile (Some statement_csv); ClickAnalyze;
               Settle 0 (Reply 200 body_A)]) as (Hreset & _).
  destruct (Hreset H) as (Hidle & _ & Hfile & _).
  split; [exact Hidle | exact Hfile].
Defined.

(** Scenario C on the code, to its end: the body without a score is stored
    as the result, the result branch throws on it, and what is left is a
    blank page without "New Scan". *)
Example scenario_C :
  page accepts_all (world (submitted_and_settled (Reply 200 body_C))) = BlankPage /\
  new_scan_button accepts_all (world (submitted_and_settled (Reply 200 body_C)))
  = None /\
  step no_env accepts_all (submitted_and_settled (Reply 200 body_C)) ClickNewScan
  = submitted_and_settled (Reply 200 body_C).
Proof. repeat split; vm_compute; reflexivity. Qed.
